(** * Flight-Award: the award scraper's extraction, persistence and session handling

    A shallow embedding of [src/scrape_united.py] (batch mode) and
    [src/auto_scraper.py] (interactive mode).

    Modelling conventions.
    - A Python call that may raise returns a [result]: [Ok v] or [Raise e].
      Two classes of exception are told apart, because the source's
      [except Exception] clauses catch the first and not the second:
      [Exception msg] (any subclass of [Exception]) and [KeyboardInterrupt].
    - The browser is not part of the repository.  A [WebDriver] value is the
      behaviour of the Selenium driver as one call of the extraction code
      observes it: what each query answers, or the exception it raises.
    - Element texts and URLs are strings over the code points U+0000 to
      U+00FF, one [ascii] for each code point (an ASCII character of a literal
      stands for itself).  On these, [str.isdigit] holds for '0'..'9' and for
      the superscripts U+00B2, U+00B3 and U+00B9; [int] accepts '0'..'9' only,
      and at most 4300 of them (the default limit of CPython 3.11).  Code
      points above U+00FF are outside the model.
    - [World.files] holds the CSV stores.  The files the browser writes itself
      (the screenshots of the debug mode) are not part of it.  The disk does
      not fail: of the file operations, only the opening for reading of a
      file that does not exist raises.
    - Console output ([print]) is not modelled. *)

From Stdlib Require Import ZArith String Ascii List Lia Bool.
From stdpp Require Import base gmap strings list.

Local Open Scope Z_scope.
Local Open Scope string_scope.

(** ** Python values and exceptions *)

Inductive pyval : Type :=
| PNone
| PInt (z : Z)
| PStr (s : string).

Inductive exn : Type :=
| Exception (msg : string)
| KeyboardInterrupt.

Inductive result (A : Type) : Type :=
| Ok (a : A)
| Raise (e : exn).
Arguments Ok {A} a.
Arguments Raise {A} e.

(** Truth value of an optional integer, as in [min_miles if min_miles else 'N/A']:
    [None] and [0] are false. *)
Definition truthy_opt_int (v : option Z) : bool :=
  match v with
  | None => false
  | Some z => negb (Z.eqb z 0)
  end.

(** ** Strings: [str.isdigit], [str.strip], [filter], [int], [in] *)

(** [str.isdecimal]: the digits that [int] and the \d of a regular
    expression accept. *)
Definition isdecimal (c : ascii) : bool :=
  let n := nat_of_ascii c in (Nat.leb 48 n && Nat.leb n 57)%bool.

(** [str.isdigit]: the decimal digits and the superscripts two, three and
    one (U+00B2, U+00B3, U+00B9). *)
Definition isdigit (c : ascii) : bool :=
  let n := nat_of_ascii c in
  (isdecimal c || Nat.eqb n 178 || Nat.eqb n 179 || Nat.eqb n 185)%bool.

(** White space as [str.strip] removes it: TAB..CR, FS..US, space, NEL
    (U+0085) and the no-break space (U+00A0). *)
Definition isspace (c : ascii) : bool :=
  let n := nat_of_ascii c in
  ((Nat.leb 9 n && Nat.leb n 13) || (Nat.leb 28 n && Nat.leb n 32)
   || Nat.eqb n 133 || Nat.eqb n 160)%bool.

Fixpoint lstrip (s : string) : string :=
  match s with
  | EmptyString => EmptyString
  | String c r => if isspace c then lstrip r else s
  end.

Fixpoint rstrip (s : string) : string :=
  match s with
  | EmptyString => EmptyString
  | String c r =>
      match rstrip r with
      | EmptyString => if isspace c then EmptyString else String c EmptyString
      | r' => String c r'
      end
  end.

Definition strip (s : string) : string := rstrip (lstrip s).

(** [''.join(filter(p, s))] *)
Fixpoint filter_str (p : ascii -> bool) (s : string) : string :=
  match s with
  | EmptyString => EmptyString
  | String c r => if p c then String c (filter_str p r) else filter_str p r
  end.

Definition digit_value (c : ascii) : Z := Z.of_nat (nat_of_ascii c) - 48.

Fixpoint int_acc (acc : Z) (s : string) : Z :=
  match s with
  | EmptyString => acc
  | String c r => int_acc (acc * 10 + digit_value c) r
  end.

(** A string is true when it is not empty ([if numbers:]). *)
Definition str_truthy (s : string) : bool :=
  match s with
  | EmptyString => false
  | String _ _ => true
  end.

(** The most digits [int] converts ([sys.get_int_max_str_digits()]). *)
Definition max_str_digits : Z := 4300.

(** [int(s)] for [s] made of [isdigit] characters, as the filter leaves it:
    its decimal value; [ValueError] when [s] is empty, holds a digit that is
    not decimal, or has more digits than the limit. *)
Definition int (s : string) : result Z :=
  if (str_truthy s && forallb isdecimal (list_ascii_of_string s)
      && Z.leb (Z.of_nat (String.length s)) max_str_digits)%bool
  then Ok (int_acc 0 s)
  else Raise (Exception "ValueError").

(** [sub in s] *)
Fixpoint contains (sub s : string) : bool :=
  if String.prefix sub s then true
  else match s with
       | EmptyString => false
       | String _ r => contains sub r
       end.

(** [min(l)] for a non-empty list; [None] stands for the [ValueError] on []. *)
Definition py_min (l : list Z) : option Z :=
  match l with
  | [] => None
  | x :: r => Some (fold_left Z.min r x)
  end.

(** ** Price parsing (scrape_united.py 99-108, auto_scraper.py 74-83) *)

(** The digits kept from one element text. *)
Definition numbers_of (text : string) : string := filter_str isdigit (strip text).

(** The loop body on a text already read: append [int(numbers)] when
    [numbers] is not empty; [int] may raise. *)
Definition add_price (miles_prices : list Z) (text : string) : result (list Z) :=
  let numbers := numbers_of text in
  if str_truthy numbers
  then match int numbers with
       | Ok n => Ok (miles_prices ++ [n])%list
       | Raise e => Raise e
       end
  else Ok miles_prices.

(** The loop over texts already read. *)
Fixpoint parse_onto (miles_prices : list Z) (texts : list string) : result (list Z) :=
  match texts with
  | [] => Ok miles_prices
  | text :: rest =>
      match add_price miles_prices text with
      | Ok miles_prices' => parse_onto miles_prices' rest
      | Raise e => Raise e
      end
  end.

Definition parse_prices (texts : list string) : result (list Z) :=
  parse_onto [] texts.

(** ** Dictionaries

    The record handed to the sink is a dict literal with six string keys;
    it is kept as the list of its items in insertion order. *)

Definition dict : Type := list (string * pyval).

Fixpoint dict_get (k : string) (d : dict) : option pyval :=
  match d with
  | [] => None
  | (k', v) :: r => if String.eqb k k' then Some v else dict_get k r
  end.

(** [if flight_data:] : a dict is true when it has an item. *)
Definition dict_truthy (d : dict) : bool :=
  match d with
  | [] => false
  | _ :: _ => true
  end.

(** ** The browser as the code sees it *)

Inductive By : Type := CSS_SELECTOR | XPATH.

Record WebElement : Type := {
  text : result string;
  get_attribute : string -> result pyval;
}.

Record WebDriver : Type := {
  get : string -> result unit;
  current_url : result string;
  title : result string;
  save_screenshot : string -> result bool;
  find_elements : By -> string -> result (list WebElement);
}.

(** [time.sleep] (which a Ctrl+C interrupts) and [datetime.now().isoformat()]
    during one call. *)
Record Clock : Type := {
  sleep : result unit;
  now_isoformat : string;
}.

Definition bind {A B : Type} (r : result A) (k : A -> result B) : result B :=
  match r with
  | Ok a => k a
  | Raise e => Raise e
  end.

Notation "'try!' x := r 'in' k" := (bind r (fun x => k))
  (at level 10, x name, r at level 200, k at level 200).

(** [if not xs] on a list *)
Definition is_empty {A : Type} (l : list A) : bool :=
  match l with
  | [] => true
  | _ :: _ => false
  end.

Definition len {A : Type} (l : list A) : Z := Z.of_nat (length l).

(** The selectors, as the source spells them. *)
Definition block_xpath : string :=
  "//*[contains(text(), 'unable to complete your request') or contains(text(), 'Please try again later')]".
Definition flight_selector_1 : string :=
  "[class*='flight-result'], [class*='FlightResult'], [data-qa*='flight']".
Definition flight_selector_2 : string :=
  "[class*='flightCard'], [class*='flight-card']".
Definition flight_selector_3 : string :=
  "li[class*='flight'], div[class*='flight']".
Definition miles_selector : string :=
  "[class*='miles'], [class*='award-price'], [data-qa*='price']".
Definition no_flights_xpath : string :=
  "//*[contains(text(), 'No flights') or contains(text(), 'no flights') or contains(text(), 'not available')]".

(** The [for elem in miles_elements] loop: reading [elem.text] may raise,
    and so may [int(numbers)]. *)
Fixpoint collect_prices (miles_elements : list WebElement) (miles_prices : list Z)
  : result (list Z) :=
  match miles_elements with
  | [] => Ok miles_prices
  | elem :: rest =>
      try! t := text elem in
      try! miles_prices := add_price miles_prices t in
      collect_prices rest miles_prices
  end.

(** The three-tier selector cascade: the first tier with a match wins. *)
Definition find_flight_elements (driver : WebDriver) : result (list WebElement) :=
  try! flight_elements := find_elements driver CSS_SELECTOR flight_selector_1 in
  try! flight_elements :=
    (if is_empty flight_elements
     then find_elements driver CSS_SELECTOR flight_selector_2
     else Ok flight_elements) in
  if is_empty flight_elements
  then find_elements driver CSS_SELECTOR flight_selector_3
  else Ok flight_elements.

(** The local variables [flights_found] and [min_miles]: an exception caught
    by the inner handler of the batch executor leaves them as they were when
    it was raised. *)
Record locals : Type := {
  flights_found : Z;
  min_miles : option Z;
}.

Definition Body (A : Type) : Type := locals -> locals * result A.

Definition body_ret {A : Type} (a : A) : Body A := fun l => (l, Ok a).

Definition body_bind {A B : Type} (m : Body A) (k : A -> Body B) : Body B :=
  fun l =>
    match m l with
    | (l', Ok a) => k a l'
    | (l', Raise e) => (l', Raise e)
    end.

Definition call {A : Type} (r : result A) : Body A := fun l => (l, r).

Definition read_flights_found : Body Z := fun l => (l, Ok (flights_found l)).

Definition set_flights_found (n : Z) : Body unit :=
  fun l => ({| flights_found := n; min_miles := min_miles l |}, Ok tt).

Definition set_min_miles (m : option Z) : Body unit :=
  fun l => ({| flights_found := flights_found l; min_miles := m |}, Ok tt).

Notation "'do!' x := m 'in' k" := (body_bind m (fun x => k))
  (at level 10, x name, m at level 200, k at level 200).

Definition when (b : bool) (m : Body unit) : Body unit :=
  if b then m else body_ret tt.

(** [min_miles if min_miles else 'N/A'] *)
Definition min_miles_field (m : option Z) : pyval :=
  if truthy_opt_int m
  then match m with Some z => PInt z | None => PNone end
  else PStr "N/A".

(** ** The regular expressions of the interactive mode

    [re.search(r'f=([A-Z]{3})', url)] and its two siblings: a literal, then
    one group made of atoms of fixed width.  [re_search] tries every start
    position from the left and answers [group(1)] of the first match. *)

Inductive atom : Type :=
| Lit (c : ascii)   (* the character itself *)
| Upper             (* [A-Z] *)
| Digit.            (* \d *)

Definition isupper_AZ (c : ascii) : bool :=
  let n := nat_of_ascii c in (Nat.leb 65 n && Nat.leb n 90)%bool.

Definition atom_matches (a : atom) (c : ascii) : bool :=
  match a with
  | Lit c' => Ascii.eqb c c'
  | Upper => isupper_AZ c
  | Digit => isdecimal c
  end.

(** The text matched by the atoms at the start of [s]. *)
Fixpoint match_atoms (p : list atom) (s : string) : option string :=
  match p with
  | [] => Some EmptyString
  | a :: p' =>
      match s with
      | EmptyString => None
      | String c r =>
          if atom_matches a c
          then match match_atoms p' r with
               | Some g => Some (String c g)
               | None => None
               end
          else None
      end
  end.

Fixpoint drop_prefix (lit s : string) : option string :=
  match lit with
  | EmptyString => Some s
  | String a lit' =>
      match s with
      | EmptyString => None
      | String c r => if Ascii.eqb a c then drop_prefix lit' r else None
      end
  end.

Definition match_here (lit : string) (group : list atom) (s : string) : option string :=
  match drop_prefix lit s with
  | Some rest => match_atoms group rest
  | None => None
  end.

Fixpoint re_search (lit : string) (group : list atom) (s : string) : option string :=
  match match_here lit group s with
  | Some g => Some g
  | None =>
      match s with
      | EmptyString => None
      | String _ r => re_search lit group r
      end
  end.

Definition code_group : list atom := [Upper; Upper; Upper].
Definition date_group : list atom :=
  [Digit; Digit; Digit; Digit; Lit "-"%char; Digit; Digit; Lit "-"%char; Digit; Digit].

(** One of the three blocks [if 'f=' in current_url: ...]: the field stays
    [None] without the marker, is [group(1)] when the pattern matches and
    'UNKNOWN' when the marker is there and the pattern does not match. *)
Definition url_field (marker : string) (group : list atom) (current_url : string) : pyval :=
  if contains marker current_url
  then match re_search marker group current_url with
       | Some g => PStr g
       | None => PStr "UNKNOWN"
       end
  else PNone.

(** [try: body except Exception: handler] on a [result]: a
    [KeyboardInterrupt] passes through. *)
Definition except_Exception {A : Type} (body : result A) (handler : string -> result A)
  : result A :=
  match body with
  | Raise (Exception msg) => handler msg
  | other => other
  end.

(** The same for a block that updates the locals: the handler of the batch
    executor only prints, and the locals keep the values they had. *)
Definition body_except_Exception (m : Body unit) : Body unit :=
  fun l =>
    match m l with
    | (l', Raise (Exception _)) => (l', Ok tt)
    | other => other
    end.

(** ** The record store

    A CSV file is the list of its rows, a row the list of its cells in the
    order of [fieldnames]; the file system maps a path to the file's rows.
    Faults of the disk itself are not modelled: [open(f, 'r')] raises
    exactly when [f] does not exist. *)

Definition csv_row : Type := list pyval.

Definition fieldnames : list string :=
  ["origin"; "destination"; "date"; "flights_found"; "min_miles"; "scraped_at"].

(** [DictWriter.writeheader] writes the field names themselves. *)
Definition header_row : csv_row := map PStr fieldnames.

(** [DictWriter.writerow]: a key outside [fieldnames] raises [ValueError];
    a missing key is written as the empty string. *)
Definition dict_to_row (rowdict : dict) : result csv_row :=
  if forallb (fun kv => existsb (String.eqb (fst kv)) fieldnames) rowdict
  then Ok (map (fun k => default (PStr "") (dict_get k rowdict)) fieldnames)
  else Raise (Exception "ValueError: dict contains fields not in fieldnames").

Record World : Type := {
  files : gmap string (list csv_row);
  quit_calls : nat;   (* how often [driver.quit()] was invoked *)
}.

Definition set_file (filename : string) (rows : list csv_row) (w : World) : World :=
  {| files := <[filename := rows]> (files w); quit_calls := quit_calls w |}.

Definition file_rows (filename : string) (w : World) : list csv_row :=
  default [] (files w !! filename).

(** Statements that act on the world and may raise. *)
Definition IO (A : Type) : Type := World -> result A * World.

Definition io_ret {A : Type} (a : A) : IO A := fun w => (Ok a, w).

Definition io_bind {A B : Type} (m : IO A) (k : A -> IO B) : IO B :=
  fun w =>
    match m w with
    | (Ok a, w') => k a w'
    | (Raise e, w') => (Raise e, w')
    end.

Definition io_call {A : Type} (r : result A) : IO A := fun w => (r, w).

Notation "'io!' x := m 'in' k" := (io_bind m (fun x => k))
  (at level 10, x name, m at level 200, k at level 200).

(** [try: body finally: fin] *)
Definition try_finally {A : Type} (body : IO A) (fin : IO unit) : IO A :=
  fun w =>
    match body w with
    | (r, w1) =>
        match fin w1 with
        | (Ok _, w2) => (r, w2)
        | (Raise e, w2) => (Raise e, w2)
        end
    end.

(** A [for] loop that carries a value from one turn to the next. *)
Fixpoint for_each {A S : Type} (xs : list A) (body : A -> S -> IO S) (s : S) : IO S :=
  match xs with
  | [] => io_ret s
  | x :: rest => io! s' := body x s in for_each rest body s'
  end.

(** [driver.quit()], counted before its own outcome is known. *)
Definition driver_quit (outcome : result unit) : IO unit :=
  fun w => (outcome, {| files := files w; quit_calls := S (quit_calls w) |}).

(** * scrape_united.py: batch mode *)

Module scrape_united.

Definition AIRPORTS : list string :=
  ["ATL"; "LAX"; "ORD"; "DFW"; "DEN"; "JFK"; "SFO"; "SEA"; "LAS"; "MCO";
   "EWR"; "CLT"; "PHX"; "IAH"; "MIA"; "BOS"; "MSP"; "FLL"; "DTW"; "PHL";
   "LGA"; "BWI"; "SLC"; "SAN"; "DCA"; "MDW"; "TPA"; "PDX"; "HNL"; "STL";
   "BNA"; "AUS"; "OAK"; "SJC"; "MCI"; "RSW"; "SAT"; "SMF"; "DAL"; "SNA";
   "PIT"; "RDU"; "CVG"; "CMH"; "IND"; "CLE"; "JAX"; "OGG"; "BDL"; "MKE"].

Definition generate_routes : list (string * string) :=
  flat_map (fun origin =>
    flat_map (fun destination =>
      if negb (String.eqb origin destination) then [(origin, destination)] else [])
      AIRPORTS)
    AIRPORTS.

(** The inner [try] block (lines 65-118), acting on the locals. *)
Definition extraction_block (driver : WebDriver) (origin destination date_str : string)
    (debug : bool) : Body unit :=
  do! _ := when debug
    (let screenshot_path := "debug_" ++ origin ++ "_" ++ destination ++ "_" ++ date_str ++ ".png" in
     do! _ := call (save_screenshot driver screenshot_path) in
     do! _ := call (title driver) in
     body_ret tt) in
  do! flight_elements := call (find_flight_elements driver) in
  do! _ := set_flights_found (len flight_elements) in
  do! _ := when debug
    (match flight_elements with
     | first :: _ => do! _ := call (get_attribute first "class") in body_ret tt
     | [] => body_ret tt
     end) in
  do! miles_elements := call (find_elements driver CSS_SELECTOR miles_selector) in
  do! miles_prices := call (collect_prices miles_elements []) in
  do! _ := when (negb (is_empty miles_prices)) (set_min_miles (py_min miles_prices)) in
  do! no_flights_indicators := call (find_elements driver XPATH no_flights_xpath) in
  do! found := read_flights_found in
  when (negb (is_empty no_flights_indicators) && Z.eqb found 0)
    (do! _ := set_flights_found 0 in set_min_miles None).

Definition search_url (origin destination date_str : string) : string :=
  "https://www.united.com/en/us/fsr/choose-flights?tt=1&st=bestmatches&d=" ++ date_str
  ++ "&clm=7&taxng=1&f=" ++ origin
  ++ "&px=1&newHP=True&fareWheel=true&sc=7&at=0&t=" ++ destination.

Section with_datetime.

(** [datetime] and the two operations the script uses on it are library
    code: [date.strftime('%Y-%m-%d')] and [start + timedelta(days=i)]. *)
Variable datetime : Type.
Variable strftime_ymd : datetime -> string.
Variable add_days : datetime -> nat -> datetime.

Definition scrape_united_awards (origin destination : string) (date : datetime)
    (driver : WebDriver) (clock : Clock) (debug : bool) : result dict :=
  let date_str := strftime_ymd date in
  except_Exception
    (let url := search_url origin destination date_str in
     try! _ := get driver url in
     try! _ := sleep clock in
     try! error_messages := find_elements driver XPATH block_xpath in
     if negb (is_empty error_messages)
     then Ok [("origin", PStr origin); ("destination", PStr destination);
              ("date", PStr date_str);
              ("flights_found", PStr "BLOCKED"); ("min_miles", PStr "BLOCKED");
              ("scraped_at", PStr (now_isoformat clock))]
     else
       match body_except_Exception (extraction_block driver origin destination date_str debug)
               {| flights_found := 0; min_miles := None |} with
       | (l, r) =>
           try! _ := r in
           Ok [("origin", PStr origin); ("destination", PStr destination);
               ("date", PStr date_str);
               ("flights_found", PInt (flights_found l));
               ("min_miles", min_miles_field (min_miles l));
               ("scraped_at", PStr (now_isoformat clock))]
       end)
    (fun _ =>
       Ok [("origin", PStr origin); ("destination", PStr destination);
           ("date", PStr date_str);
           ("flights_found", PStr "ERROR"); ("min_miles", PStr "ERROR");
           ("scraped_at", PStr (now_isoformat clock))]).

(** What one run of [main] meets: the outcome of launching Chrome, the
    clock's date, the login phase, and for the k-th search (counted from 1,
    as [current_search]) the driver, the clock and the pacing sleep. *)
Record Env : Type := {
  setup_driver : result unit;
  start_date : datetime;
  login_get : result unit;
  login_sleep : result unit;
  login_input : result string;
  search_driver : nat -> WebDriver;
  search_clock : nat -> Clock;
  pacing_sleep : nat -> result unit;
  quit_outcome : result unit;
}.

Definition output_file : string := "united_awards.csv".

(** The body of the inner [for date in dates] loop (lines 212-225). *)
Definition search_step (env : Env) (debug : bool) (origin destination : string)
    (date : datetime) (current_search : nat) : IO nat :=
  let current_search := S current_search in
  io! flight_data := io_call (scrape_united_awards origin destination date
                                (search_driver env current_search)
                                (search_clock env current_search) debug) in
  io! _ := (if dict_truthy flight_data
            then fun w =>
                   match dict_to_row flight_data with
                   | Ok row => (Ok tt, set_file output_file (file_rows output_file w ++ [row]) w)
                   | Raise e => (Raise e, w)
                   end
            else io_ret tt) in
  io! _ := io_call (pacing_sleep env current_search) in
  io_ret current_search.

Definition main (test_mode debug manual_login : bool) (env : Env) : IO unit :=
  let routes := generate_routes in
  let routes := if test_mode then firstn 1 routes else routes in
  let dates := map (add_days (start_date env)) (seq 0 (if test_mode then 2 else 365)) in
  io! _ := io_call (setup_driver env) in
  io! _ := (if manual_login
            then io! _ := io_call (login_get env) in
                 io! _ := io_call (login_sleep env) in
                 io! _ := io_call (login_input env) in
                 io_ret tt
            else io_ret tt) in
  try_finally
    (io! _ := (fun w => (Ok tt, set_file output_file [header_row] w)) in
     io! _ := for_each routes (fun route current_search =>
                for_each dates (fun date current_search =>
                  search_step env debug (fst route) (snd route) date current_search)
                  current_search) 0%nat in
     io_ret tt)
    (driver_quit (quit_outcome env)).

End with_datetime.

Arguments scrape_united_awards {datetime} strftime_ymd origin destination date
  driver clock debug.
Arguments setup_driver {datetime} e.
Arguments start_date {datetime} e.
Arguments login_get {datetime} e.
Arguments login_sleep {datetime} e.
Arguments login_input {datetime} e.
Arguments search_driver {datetime} e _.
Arguments search_clock {datetime} e _.
Arguments pacing_sleep {datetime} e _.
Arguments quit_outcome {datetime} e.
Arguments search_step {datetime} strftime_ymd env debug origin destination date
  current_search _.
Arguments main {datetime} strftime_ymd add_days test_mode debug manual_login env _.

End scrape_united.

(** * auto_scraper.py: interactive mode *)

Module auto_scraper.

Definition extract_flight_data (driver : WebDriver) (clock : Clock) : result (option dict) :=
  except_Exception
    (try! current_url := current_url driver in
     let origin := url_field "f=" code_group current_url in
     let destination := url_field "t=" code_group current_url in
     let date := url_field "d=" date_group current_url in
     try! _ := sleep clock in
     try! error_messages := find_elements driver XPATH block_xpath in
     if negb (is_empty error_messages)
     then Ok (Some [("origin", origin); ("destination", destination); ("date", date);
                    ("flights_found", PStr "BLOCKED"); ("min_miles", PStr "BLOCKED");
                    ("scraped_at", PStr (now_isoformat clock))])
     else
       try! flight_elements := find_flight_elements driver in
       let flights_found := len flight_elements in
       try! miles_elements := find_elements driver CSS_SELECTOR miles_selector in
       try! miles_prices := collect_prices miles_elements [] in
       let min_miles := if negb (is_empty miles_prices) then py_min miles_prices else None in
       try! no_flights_indicators := find_elements driver XPATH no_flights_xpath in
       let no_flights := (negb (is_empty no_flights_indicators) && Z.eqb flights_found 0)%bool in
       let flights_found := if no_flights then 0 else flights_found in
       let min_miles := if no_flights then None else min_miles in
       Ok (Some [("origin", origin); ("destination", destination); ("date", date);
                 ("flights_found", PInt flights_found);
                 ("min_miles", min_miles_field min_miles);
                 ("scraped_at", PStr (now_isoformat clock))]))
    (fun _ => Ok None).

(** [save_to_csv]: the header goes in exactly when the file could not be
    opened for reading; the file is then opened for appending, which creates
    it.  The answer is [True], or [False] when [writerow] raised. *)
Definition save_to_csv (flight_data : dict) (filename : string) (w : World) : bool * World :=
  let write_header :=
    match files w !! filename with
    | Some _ => false
    | None => true
    end in
  let csvfile := file_rows filename w in
  let csvfile := (if write_header then csvfile ++ [header_row] else csvfile)%list in
  match dict_to_row flight_data with
  | Ok row => (true, set_file filename (csvfile ++ [row]) w)
  | Raise _ => (false, set_file filename csvfile w)
  end.

(** One turn of the polling loop as the script observes it: the clock at the
    loop test, the URL read, and the outcome of the sleep that follows
    (5 s on a results page, 1 s otherwise). *)
Record Poll : Type := {
  poll_time : Z;
  poll_url : result string;
  poll_sleep : result unit;
}.

Fixpoint polling (timeout start_time : Z) (polls : list Poll) : option (result bool) :=
  match polls with
  | [] => None   (* the observation ends while the script still polls *)
  | p :: rest =>
      if Z.ltb (poll_time p - start_time) timeout
      then match poll_url p with
           | Raise e => Some (Raise e)
           | Ok current_url =>
               if (contains "choose-flights" current_url || contains "fsr" current_url)%bool
               then match poll_sleep p with
                    | Ok _ => Some (Ok true)
                    | Raise e => Some (Raise e)
                    end
               else match poll_sleep p with
                    | Ok _ => polling timeout start_time rest
                    | Raise e => Some (Raise e)
                    end
           end
      else Some (Ok false)
  end.

(** What one call of [wait_for_search_results] meets. *)
Record Watch : Type := {
  start_time : Z;
  first_url : result string;   (* [last_url = driver.current_url] *)
  polls : list Poll;
}.

Definition wait_for_search_results (watch : Watch) (timeout : Z) : option (result bool) :=
  match first_url watch with
  | Raise e => Some (Raise e)
  | Ok _ => polling timeout (start_time watch) (polls watch)
  end.

(** What one turn of the [while True] loop meets. *)
Record Turn : Type := {
  watch : Watch;
  page : WebDriver;
  clock : Clock;
}.

Definition default_filename : string := "united_awards.csv".

(** The body of the [while True] loop (lines 203-234); [None] when the
    observation ends inside the polling. *)
Definition main_turn (t : Turn) (w : World) : option (result unit * World) :=
  match wait_for_search_results (watch t) 300 with
  | None => None
  | Some (Raise e) => Some (Raise e, w)
  | Some (Ok true) =>
      match extract_flight_data (page t) (clock t) with
      | Raise e => Some (Raise e, w)
      | Ok (Some flight_data) =>
          if dict_truthy flight_data
          then Some (Ok tt, snd (save_to_csv flight_data default_filename w))
          else Some (Ok tt, w)
      | Ok None => Some (Ok tt, w)
      end
  | Some (Ok false) => Some (Ok tt, w)
  end.

(** The loop has no exit of its own: it ends by an exception, or the
    observation ends first ([None]). *)
Fixpoint main_loop (turns : list Turn) (w : World) : option (exn * World) :=
  match turns with
  | [] => None
  | t :: rest =>
      match main_turn t w with
      | None => None
      | Some (Raise e, w') => Some (e, w')
      | Some (Ok _, w') => main_loop rest w'
      end
  end.

Record Env : Type := {
  start_input : result string;   (* [input('Press ENTER to start...')] *)
  setup_driver : result unit;
  home_get : result unit;
  login_input : result string;
  turns : list Turn;
  quit_outcome : result unit;
}.

(** [main]: both [except] clauses only print, so whatever ends the [try]
    block, the function goes on to [finally] and returns. *)
Definition main (env : Env) (w : World) : option (result unit * World) :=
  match start_input env with
  | Raise e => Some (Raise e, w)
  | Ok _ =>
      match setup_driver env with
      | Raise e => Some (Raise e, w)
      | Ok _ =>
          let tried :=
            match (try! _ := home_get env in login_input env) with
            | Raise e => Some (e, w)
            | Ok _ => main_loop (turns env) w
            end in
          match tried with
          | None => None
          | Some (_, w1) => Some (driver_quit (quit_outcome env) w1)
          end
      end
  end.

End auto_scraper.

(** * Sample pages and runs *)

Definition element (t : string) : WebElement :=
  {| text := Ok t; get_attribute := fun _ => Ok PNone |}.

(** A page on which every query answers: the elements that carry a block
    phrase, those of the three cascade tiers, the price elements and the
    elements that carry a no-availability phrase. *)
Definition static_page (url : string)
    (blocked tier1 tier2 tier3 prices unavailable : list WebElement) : WebDriver :=
  {| get := fun _ => Ok tt;
     current_url := Ok url;
     title := Ok "United Airlines";
     save_screenshot := fun _ => Ok true;
     find_elements := fun by_ selector =>
       match by_ with
       | XPATH =>
           if String.eqb selector block_xpath then Ok blocked
           else if String.eqb selector no_flights_xpath then Ok unavailable
           else Ok []
       | CSS_SELECTOR =>
           if String.eqb selector flight_selector_1 then Ok tier1
           else if String.eqb selector flight_selector_2 then Ok tier2
           else if String.eqb selector flight_selector_3 then Ok tier3
           else if String.eqb selector miles_selector then Ok prices
           else Ok []
       end |}.

(** The same page, on which the first cascade query raises. *)
Definition stale_page (url : string) : WebDriver :=
  {| get := fun _ => Ok tt;
     current_url := Ok url;
     title := Ok "United Airlines";
     save_screenshot := fun _ => Ok true;
     find_elements := fun by_ selector =>
       match by_ with
       | XPATH => Ok []
       | CSS_SELECTOR => Raise (Exception "StaleElementReferenceException")
       end |}.

Definition noon : Clock :=
  {| sleep := Ok tt; now_isoformat := "2025-01-01T12:00:00" |}.

Definition results_url : string :=
  "https://www.united.com/en/us/fsr/choose-flights?f=ATL&t=LAX&d=2025-01-01&tt=1".

(** Days of January 2025 counted from the first, for the sample runs. *)
Definition january (day : nat) : string :=
  nth day ["2025-01-01"; "2025-01-02"; "2025-01-03"; "2025-01-04"] "2025-01-05".


Definition fresh_world : World := {| files := ∅; quit_calls := 0 |}.

Definition sample_row (origin destination : string) (found : Z) (miles : pyval) : dict :=
  [("origin", PStr origin); ("destination", PStr destination); ("date", PStr "2025-01-01");
   ("flights_found", PInt found); ("min_miles", miles);
   ("scraped_at", PStr "2025-01-01T12:00:00")].

(** A page with two result cards and two prices. *)
Definition results_page : WebDriver :=
  static_page results_url [] [element "card"; element "card"] [] []
    [element "12,500 miles"; element "8,000"] [].

(** A blocked page. *)
Definition blocked_page : WebDriver :=
  static_page results_url [element "Please try again later"] [] [] [] [] [].

(** Interactive turns: the user never searches within the 300 s; the user
    reaches a results page; the user reaches one on which the queries raise;
    the user presses Ctrl+C while the script polls. *)
Definition idle_turn : auto_scraper.Turn :=
  {| auto_scraper.watch :=
       {| auto_scraper.start_time := 0;
          auto_scraper.first_url := Ok "https://www.united.com";
          auto_scraper.polls :=
            [{| auto_scraper.poll_time := 150;
                auto_scraper.poll_url := Ok "https://www.united.com";
                auto_scraper.poll_sleep := Ok tt |};
             {| auto_scraper.poll_time := 300;
                auto_scraper.poll_url := Ok "https://www.united.com";
                auto_scraper.poll_sleep := Ok tt |}] |};
     auto_scraper.page := results_page;
     auto_scraper.clock := noon |}.

Definition search_turn (driver : WebDriver) : auto_scraper.Turn :=
  {| auto_scraper.watch :=
       {| auto_scraper.start_time := 0;
          auto_scraper.first_url := Ok "https://www.united.com";
          auto_scraper.polls :=
            [{| auto_scraper.poll_time := 1;
                auto_scraper.poll_url := Ok results_url;
                auto_scraper.poll_sleep := Ok tt |}] |};
     auto_scraper.page := driver;
     auto_scraper.clock := noon |}.

Definition ctrl_c_turn : auto_scraper.Turn :=
  {| auto_scraper.watch :=
       {| auto_scraper.start_time := 0;
          auto_scraper.first_url := Ok "https://www.united.com";
          auto_scraper.polls :=
            [{| auto_scraper.poll_time := 1;
                auto_scraper.poll_url := Ok "https://www.united.com";
                auto_scraper.poll_sleep := Raise KeyboardInterrupt |}] |};
     auto_scraper.page := results_page;
     auto_scraper.clock := noon |}.

(** A batch run in which everything answers, and one in which the user
    presses Ctrl+C at the login prompt. *)
Definition calm_run : scrape_united.Env nat :=
  {| scrape_united.setup_driver := Ok tt;
     scrape_united.start_date := 0%nat;
     scrape_united.login_get := Ok tt;
     scrape_united.login_sleep := Ok tt;
     scrape_united.login_input := Ok "";
     scrape_united.search_driver := fun k => if Nat.eqb k 1 then results_page else blocked_page;
     scrape_united.search_clock := fun _ => noon;
     scrape_united.pacing_sleep := fun _ => Ok tt;
     scrape_united.quit_outcome := Ok tt |}.

Definition interrupted_login : scrape_united.Env nat :=
  {| scrape_united.setup_driver := Ok tt;
     scrape_united.start_date := 0%nat;
     scrape_united.login_get := Ok tt;
     scrape_united.login_sleep := Ok tt;
     scrape_united.login_input := Raise KeyboardInterrupt;
     scrape_united.search_driver := fun _ => results_page;
     scrape_united.search_clock := fun _ => noon;
     scrape_united.pacing_sleep := fun _ => Ok tt;
     scrape_united.quit_outcome := Ok tt |}.

Definition interactive_run (ts : list auto_scraper.Turn) : auto_scraper.Env :=
  {| auto_scraper.start_input := Ok "";
     auto_scraper.setup_driver := Ok tt;
     auto_scraper.home_get := Ok tt;
     auto_scraper.login_input := Ok "";
     auto_scraper.turns := ts;
     auto_scraper.quit_outcome := Ok tt |}.

(** ** What the URL conventions mean

    [occurs sub s]: [sub] is a substring of [s].  [group_matches group g]:
    [g] is, character by character, what the atoms of [group] accept. *)

Definition occurs (sub s : string) : Prop :=
  exists pre post, s = pre ++ sub ++ post.

Definition group_matches (group : list atom) (g : string) : Prop :=
  Forall2 (fun a c => atom_matches a c = true) group (list_ascii_of_string g).

(** A results URL on which the origin pattern matches twice. *)
Definition two_origins_url : string :=
  "https://www.united.com/en/us/fsr/choose-flights?f=ATL&bf=1&f=ORD&t=LAX".

(** A results URL that carries none of the three parameters. *)
Definition bare_results_url : string :=
  "https://www.united.com/en/us/fsr/choose-flights".

(** ** Price texts *)

(** A price text with a footnote mark: "12,500 miles" followed by a
    superscript one (U+00B9); and a text of 4301 nines. *)
Definition superscript_one : ascii := ascii_of_nat 185.

Definition footnoted_price : string := "12,500 miles" ++ String superscript_one "".

Definition long_number : string := string_of_list_ascii (repeat "9"%char 4301).

(** A text whose digits [int] takes: those the filter keeps are decimal, and
    there are no more of them than the limit. *)
Definition decimal_text (text : string) : Prop :=
  Forall (fun c => isdigit c = true -> isdecimal c = true) (list_ascii_of_string text) /\
  Z.of_nat (String.length (filter_str isdigit text)) <= max_str_digits.

Definition is_decimal_text (text : string) : bool :=
  (forallb (fun c => implb (isdigit c) (isdecimal c)) (list_ascii_of_string text)
   && Z.leb (Z.of_nat (String.length (filter_str isdigit text))) max_str_digits)%bool.

(** What a field read off the URL is, in terms of the URL alone: [None]
    without the marker; 'UNKNOWN' when the marker occurs and is nowhere
    followed by a well-formed value; else the value behind the leftmost
    occurrence of the marker that is followed by one. *)
Definition reads_param (marker : string) (group : list atom) (url : string) (v : pyval)
  : Prop :=
  (~ occurs marker url /\ v = PNone) \/
  (occurs marker url /\
   (forall pre g post, url = pre ++ marker ++ g ++ post -> ~ group_matches group g) /\
   v = PStr "UNKNOWN") \/
  (exists pre g post,
     url = pre ++ marker ++ g ++ post /\ group_matches group g /\
     (forall pre' g' post',
        url = pre' ++ marker ++ g' ++ post' -> group_matches group g' ->
        (String.length pre <= String.length pre')%nat /\
        (String.length pre = String.length pre' -> g' = g)) /\
     v = PStr g).

(** * Notions used to state further properties of the code *)

(** The nested loop of [generate_routes], over any list of airport codes. *)
Definition routes_over (airports : list string) : list (string * string) :=
  flat_map (fun origin =>
    flat_map (fun destination =>
      if negb (String.eqb origin destination) then [(origin, destination)] else [])
      airports)
    airports.

(** The test by which the polling loop recognises a results page. *)
Definition is_results_url (current_url : string) : bool :=
  (contains "choose-flights" current_url || contains "fsr" current_url)%bool.

(** The cells that name the query of a row, and the query behind a search. *)
Definition row_query (row : csv_row) : list pyval := firstn 3 row.

Definition query_cells (origin destination date_str : string) : list pyval :=
  [PStr origin; PStr destination; PStr date_str].

(** The two result fields of a record are both 'BLOCKED', both 'ERROR', or
    a count with a positive price or 'N/A'. *)
Definition result_fields_ok (found miles : pyval) : Prop :=
  (found = PStr "BLOCKED" /\ miles = PStr "BLOCKED") \/
  (found = PStr "ERROR" /\ miles = PStr "ERROR") \/
  (exists n, found = PInt n /\ 0 <= n /\
             (miles = PStr "N/A" \/ exists m, miles = PInt m /\ 0 < m)).

(** A turn of the polling loop that keeps it waiting: within the timeout, on
    a page that is not a results page, with an undisturbed sleep. *)
Definition waiting_poll (timeout start_time : Z) (p : auto_scraper.Poll) : Prop :=
  auto_scraper.poll_time p - start_time < timeout /\
  exists url, auto_scraper.poll_url p = Ok url /\ is_results_url url = false /\
              auto_scraper.poll_sleep p = Ok tt.

(** A statement about a block on the locals: it keeps the invariant [I],
    whether it ends normally or by an exception, and a value it returns
    satisfies [Q]. *)
Definition body_triple {A : Type} (I : locals -> Prop) (m : Body A) (Q : A -> Prop) : Prop :=
  forall l, I l -> I (fst (m l)) /\ forall a, snd (m l) = Ok a -> Q a.

(** What the locals of the batch executor always satisfy. *)
Definition locals_ok (l : locals) : Prop :=
  0 <= flights_found l /\ forall z, min_miles l = Some z -> 0 <= z.

(** A store in good order: the header once, at the top, then data rows of
    six cells. *)
Definition data_row (row : csv_row) : Prop := length row = 6%nat /\ row <> header_row.

Definition store_in_order (rows : list csv_row) : Prop :=
  exists data, rows = header_row :: data /\ Forall data_row data.

(** * Facts about the string functions *)

Lemma isspace_not_digit c : isspace c = true -> isdigit c = false.
Proof.
  destruct c as [[] [] [] [] [] [] [] []]; vm_compute; congruence.
Qed.

Lemma filter_digits_lstrip s : filter_str isdigit (lstrip s) = filter_str isdigit s.
Proof.
  induction s as [|c r IH]; simpl; [reflexivity|].
  destruct (isspace c) eqn:Hc; [|reflexivity].
  now rewrite (isspace_not_digit c Hc).
Qed.

Lemma filter_digits_rstrip s : filter_str isdigit (rstrip s) = filter_str isdigit s.
Proof.
  induction s as [|c r IH]; simpl; [reflexivity|].
  destruct (rstrip r) as [|c' r'] eqn:Hr.
  - simpl in IH. destruct (isspace c) eqn:Hc.
    + rewrite (isspace_not_digit c Hc). exact IH.
    + simpl. now rewrite <- IH.
  - change (filter_str isdigit (String c (String c' r')))
      with (if isdigit c then String c (filter_str isdigit (String c' r'))
            else filter_str isdigit (String c' r')).
    now rewrite IH.
Qed.

(** [strip] removes no digit: the digits kept are those of the raw text. *)
Lemma numbers_of_raw text : numbers_of text = filter_str isdigit text.
Proof.
  unfold numbers_of, strip. now rewrite filter_digits_rstrip, filter_digits_lstrip.
Qed.

Lemma filter_str_app p a b : filter_str p (a ++ b) = filter_str p a ++ filter_str p b.
Proof.
  induction a as [|c r IH]; simpl; [reflexivity|].
  destruct (p c); simpl; now rewrite IH.
Qed.

Lemma str_truthy_filter p s :
  str_truthy (filter_str p s) = true <->
  exists c, In c (list_ascii_of_string s) /\ p c = true.
Proof.
  induction s as [|c r IH]; simpl.
  - split; [discriminate | intros (c & [] & _)].
  - destruct (p c) eqn:Hc; simpl.
    + split; [intros _; exists c; auto | reflexivity].
    + rewrite IH. split.
      * intros (d & Hd & Hp). exists d; auto.
      * intros (d & [Hd | Hd] & Hp); [subst; congruence | exists d; auto].
Qed.

(** * Facts about the price list *)

Lemma int_decimal s :
  str_truthy s = true ->
  Forall (fun c => isdecimal c = true) (list_ascii_of_string s) ->
  Z.of_nat (String.length s) <= max_str_digits ->
  int s = Ok (int_acc 0 s).
Proof.
  intros Hs Hall Hlen. unfold int. rewrite Hs.
  assert (forallb isdecimal (list_ascii_of_string s) = true) as ->.
  { apply forallb_forall. now apply List.Forall_forall. }
  apply Z.leb_le in Hlen. now rewrite Hlen.
Qed.

Lemma int_raises s e : int s = Raise e -> e = Exception "ValueError".
Proof. unfold int. destruct (_ && _ && _)%bool; [discriminate | now intros [= <-]]. Qed.

Lemma int_value s n :
  int s = Ok n ->
  n = int_acc 0 s /\ Forall (fun c => isdecimal c = true) (list_ascii_of_string s).
Proof.
  unfold int. destruct (str_truthy s); [|discriminate]. simpl.
  destruct (forallb isdecimal (list_ascii_of_string s)) eqn:E; [|discriminate]. simpl.
  destruct (Z.leb _ _); [|discriminate]. intros [= <-]. split; [reflexivity|].
  apply List.Forall_forall. now apply forallb_forall.
Qed.

Lemma filter_decimal_text text :
  Forall (fun c => isdigit c = true -> isdecimal c = true) (list_ascii_of_string text) ->
  Forall (fun c => isdecimal c = true) (list_ascii_of_string (filter_str isdigit text)).
Proof.
  induction text as [|c r IH]; simpl; intros H; [constructor|].
  apply Forall_cons_iff in H as [Hc Hr].
  destruct (isdigit c) eqn:E; simpl; [constructor|]; auto.
Qed.

Lemma add_price_decimal miles_prices text :
  decimal_text text ->
  add_price miles_prices text =
  Ok (miles_prices ++
      if str_truthy (filter_str isdigit text)
      then [int_acc 0 (filter_str isdigit text)] else [])%list.
Proof.
  intros [Hdec Hlen]. unfold add_price. rewrite numbers_of_raw.
  destruct (str_truthy (filter_str isdigit text)) eqn:E.
  - now rewrite (int_decimal _ E (filter_decimal_text _ Hdec) Hlen).
  - now rewrite app_nil_r.
Qed.

Lemma add_price_raises miles_prices text e :
  add_price miles_prices text = Raise e -> e = Exception "ValueError".
Proof.
  unfold add_price. destruct (str_truthy (numbers_of text)); [|discriminate].
  destruct (int (numbers_of text)) as [n|e0] eqn:E; [discriminate|].
  intros [= <-]. now apply int_raises in E.
Qed.



Lemma fold_min_spec r x :
  In (fold_left Z.min r x) (x :: r) /\
  Forall (fun y => fold_left Z.min r x <= y) (x :: r).
Proof.
  revert x. induction r as [|y r IH]; intros x; simpl.
  - split; [now left | constructor; [lia | constructor]].
  - destruct (IH (Z.min x y)) as [Hin Hall].
    apply Forall_cons_iff in Hall as [Hm Hall]. split.
    + destruct Hin as [Hin | Hin]; [|now right; right].
      destruct (Z.min_spec x y) as [[_ E] | [_ E]];
        [left | right; left]; rewrite <- Hin; lia.
    + constructor; [lia|]. constructor; [lia | exact Hall].
Qed.

Lemma py_min_spec l :
  match py_min l with
  | Some m => In m l /\ Forall (fun y => m <= y) l
  | None => l = []
  end.
Proof.
  destruct l as [|x r]; simpl; [reflexivity | apply fold_min_spec].
Qed.



(** C5: every price text is to be reduced to its digit characters and parsed
    as an integer whenever one remains.  The code keeps the characters of
    str.isdigit and hands them to int(), which takes the decimal digits only:
    on "12,500 miles" followed by a superscript one the remainder is not
    empty and int() raises ValueError (as it does on more than 4300 digits).
    The price 8,000 parsed before it is lost: the batch executor records
    'N/A', the interactive extraction answers no record.  On the texts of the
    spec's example the code does what the claim says. *)
Theorem C5_kept_digit_that_int_refuses :
  isdigit superscript_one = true /\
  numbers_of footnoted_price = "12500" ++ String superscript_one "" /\
  int (numbers_of footnoted_price) = Raise (Exception "ValueError") /\
  parse_prices ["8,000"; footnoted_price] = Raise (Exception "ValueError") /\
  scrape_united.scrape_united_awards january "ATL" "LAX" 0%nat
    (static_page results_url [] [element "card"] [] []
       [element "8,000"; element footnoted_price] [])
    noon false
  = Ok [("origin", PStr "ATL"); ("destination", PStr "LAX"); ("date", PStr "2025-01-01");
        ("flights_found", PInt 1); ("min_miles", PStr "N/A");
        ("scraped_at", PStr "2025-01-01T12:00:00")] /\
  auto_scraper.extract_flight_data
    (static_page results_url [] [element "card"] [] []
       [element "8,000"; element footnoted_price] [])
    noon = Ok None /\
  String.length long_number = 4301%nat /\
  int long_number = Raise (Exception "ValueError") /\
  parse_prices ["12,500 miles"; "8,000"; "award n/a"] = Ok [12500; 8000] /\
  py_min [12500; 8000] = Some 8000.
Proof. repeat split; vm_compute; reflexivity. Qed.

(** * Facts about the two extraction functions *)

Lemma min_miles_field_not_zero m : min_miles_field m <> PInt 0.
Proof.
  unfold min_miles_field, truthy_opt_int. destruct m as [z|]; [|discriminate].
  destruct (Z.eqb_spec z 0); simpl; congruence.
Qed.

Lemma cascade_empty driver :
  find_elements driver CSS_SELECTOR flight_selector_1 = Ok [] ->
  find_elements driver CSS_SELECTOR flight_selector_2 = Ok [] ->
  find_elements driver CSS_SELECTOR flight_selector_3 = Ok [] ->
  find_flight_elements driver = Ok [].
Proof.
  intros H1 H2 H3. unfold find_flight_elements. rewrite H1. simpl.
  rewrite H2. simpl. exact H3.
Qed.

(** The shape of every record the batch executor returns. *)
Lemma scrape_united_awards_shape {datetime : Type} (strftime_ymd : datetime -> string)
    origin destination date driver clock debug r :
  scrape_united.scrape_united_awards strftime_ymd origin destination date
    driver clock debug = Ok r ->
  exists found miles,
    r = [("origin", PStr origin); ("destination", PStr destination);
         ("date", PStr (strftime_ymd date));
         ("flights_found", found); ("min_miles", miles);
         ("scraped_at", PStr (now_isoformat clock))] /\
    ((found = PStr "BLOCKED" /\ miles = PStr "BLOCKED") \/
     (found = PStr "ERROR" /\ miles = PStr "ERROR") \/
     (exists l, found = PInt (flights_found l) /\ miles = min_miles_field (min_miles l))).
Proof.
  unfold scrape_united.scrape_united_awards, except_Exception.
  destruct (get driver _) as [[]|[msg|]]; simpl;
    [|intros [= <-]; eauto 8|discriminate].
  destruct (sleep clock) as [[]|[msg|]]; simpl;
    [|intros [= <-]; eauto 8|discriminate].
  destruct (find_elements driver XPATH block_xpath) as [[|e es]|[msg|]]; simpl;
    [|intros [= <-]; eauto 8|intros [= <-]; eauto 8|discriminate].
  destruct (body_except_Exception _ _) as [l [[]|[msg|]]]; simpl;
    [intros [= <-]; eauto 10|intros [= <-]; eauto 8|discriminate].
Qed.

(** The shape of every record the interactive extraction returns. *)
Lemma extract_flight_data_shape driver clock r :
  auto_scraper.extract_flight_data driver clock = Ok (Some r) ->
  exists url found miles,
    current_url driver = Ok url /\
    r = [("origin", url_field "f=" code_group url);
         ("destination", url_field "t=" code_group url);
         ("date", url_field "d=" date_group url);
         ("flights_found", found); ("min_miles", miles);
         ("scraped_at", PStr (now_isoformat clock))] /\
    ((found = PStr "BLOCKED" /\ miles = PStr "BLOCKED") \/
     (exists n m, found = PInt n /\ miles = min_miles_field m)).
Proof.
  unfold auto_scraper.extract_flight_data, except_Exception.
  destruct (current_url driver) as [url|[msg|]]; simpl; [|discriminate..].
  destruct (sleep clock) as [[]|[msg|]]; simpl; [|discriminate..].
  destruct (find_elements driver XPATH block_xpath) as [[|e es]|[msg|]]; simpl;
    [|intros [= <-]; eauto 10|discriminate..].
  destruct (find_flight_elements driver) as [cards|[msg|]]; simpl; [|discriminate..].
  destruct (find_elements driver CSS_SELECTOR miles_selector) as [ms|[msg|]]; simpl;
    [|discriminate..].
  destruct (collect_prices ms []) as [prices|[msg|]]; simpl; [|discriminate..].
  destruct (find_elements driver XPATH no_flights_xpath) as [nf|[msg|]]; simpl;
    [|discriminate..].
  intros [= <-]. eauto 12.
Qed.

(** C1: when the page carries a block phrase, both extraction functions
    answer a record whose flights_found and min_miles are 'BLOCKED', whatever
    the other queries of the page would answer. *)
Theorem C1_block_detection_dominates :
  (forall (datetime : Type) (strftime_ymd : datetime -> string)
          origin destination date driver clock debug e es,
      get driver (scrape_united.search_url origin destination (strftime_ymd date)) = Ok tt ->
      sleep clock = Ok tt ->
      find_elements driver XPATH block_xpath = Ok (e :: es) ->
      exists r,
        scrape_united.scrape_united_awards strftime_ymd origin destination date
          driver clock debug = Ok r /\
        dict_get "flights_found" r = Some (PStr "BLOCKED") /\
        dict_get "min_miles" r = Some (PStr "BLOCKED")) /\
  (forall driver clock url e es,
      current_url driver = Ok url ->
      sleep clock = Ok tt ->
      find_elements driver XPATH block_xpath = Ok (e :: es) ->
      exists r,
        auto_scraper.extract_flight_data driver clock = Ok (Some r) /\
        dict_get "flights_found" r = Some (PStr "BLOCKED") /\
        dict_get "min_miles" r = Some (PStr "BLOCKED")).
Proof.
  split.
  - intros datetime strftime_ymd origin destination date driver clock debug e es Hget Hsleep Hblock.
    unfold scrape_united.scrape_united_awards. rewrite Hget. simpl.
    rewrite Hsleep. simpl. rewrite Hblock. simpl.
    eexists. split; [reflexivity|]. split; reflexivity.
  - intros driver clock url e es Hurl Hsleep Hblock.
    unfold auto_scraper.extract_flight_data. rewrite Hurl. simpl.
    rewrite Hsleep. simpl. rewrite Hblock. simpl.
    eexists. split; [reflexivity|]. split; reflexivity.
Qed.

Lemma C1_block_detection_dominates_witness :
  (exists r,
     scrape_united.scrape_united_awards january "ATL" "LAX" 0%nat
       (static_page results_url [element "Please try again later"]
          [element "card"] [] [] [element "12,500 miles"] [element "No flights"])
       noon true = Ok r /\
     dict_get "flights_found" r = Some (PStr "BLOCKED") /\
     dict_get "min_miles" r = Some (PStr "BLOCKED")) /\
  (exists r,
     auto_scraper.extract_flight_data
       (static_page results_url [element "Please try again later"]
          [element "card"] [] [] [element "12,500 miles"] [element "No flights"])
       noon = Ok (Some r) /\
     dict_get "flights_found" r = Some (PStr "BLOCKED") /\
     dict_get "min_miles" r = Some (PStr "BLOCKED")).
Proof.
  split.
  - apply (proj1 C1_block_detection_dominates nat january "ATL" "LAX" 0%nat
             _ noon true (element "Please try again later") []); reflexivity.
  - apply (proj2 C1_block_detection_dominates _ noon results_url
             (element "Please try again later") []); reflexivity.
Defined.

(** The inner block of the batch executor on a page without result
    candidates that carries a no-availability phrase: whatever the price
    elements gave, the locals end at 0 and [None]. *)
Lemma extraction_block_no_availability driver origin destination date_str debug
    miles_elements miles_prices e es :
  (forall p, save_screenshot driver p <> Raise KeyboardInterrupt) ->
  title driver <> Raise KeyboardInterrupt ->
  find_flight_elements driver = Ok [] ->
  find_elements driver CSS_SELECTOR miles_selector = Ok miles_elements ->
  collect_prices miles_elements [] = Ok miles_prices ->
  find_elements driver XPATH no_flights_xpath = Ok (e :: es) ->
  body_except_Exception
    (scrape_united.extraction_block driver origin destination date_str debug)
    {| flights_found := 0; min_miles := None |}
  = ({| flights_found := 0; min_miles := None |}, Ok tt).
Proof.
  intros Hshot Htitle Hcards Hmiles Hprices Hnone.
  assert (Hrest :
    body_except_Exception
      (scrape_united.extraction_block driver origin destination date_str false)
      {| flights_found := 0; min_miles := None |}
    = ({| flights_found := 0; min_miles := None |}, Ok tt)).
  { unfold body_except_Exception, scrape_united.extraction_block, body_bind, call, when,
      body_ret, set_flights_found, set_min_miles, read_flights_found.
    simpl. rewrite Hcards. simpl. rewrite Hmiles, Hprices. simpl.
    rewrite Hnone. simpl. now destruct miles_prices. }
  destruct debug; [|exact Hrest].
  revert Hrest.
  unfold body_except_Exception, scrape_united.extraction_block, body_bind, call, when,
    body_ret, set_flights_found, set_min_miles, read_flights_found.
  simpl.
  specialize (Hshot ("debug_" ++ origin ++ "_" ++ destination ++ "_" ++ date_str ++ ".png")).
  destruct (save_screenshot driver _) as [b|[msg|]]; [|reflexivity|congruence].
  destruct (title driver) as [t|[msg|]]; [|reflexivity|congruence].
  rewrite Hcards. simpl. rewrite Hmiles, Hprices. simpl.
  rewrite Hnone. simpl. now destruct miles_prices.
Qed.

(** C4: on a page that is not blocked, on which the three tiers of the
    cascade match nothing and a no-availability phrase is found, both
    extraction functions record flights_found = 0 and min_miles = 'N/A',
    whatever integers the price elements gave. *)
Theorem C4_no_availability_override :
  (forall (datetime : Type) (strftime_ymd : datetime -> string)
          origin destination date driver clock debug miles_elements miles_prices e es,
      get driver (scrape_united.search_url origin destination (strftime_ymd date)) = Ok tt ->
      sleep clock = Ok tt ->
      (forall p, save_screenshot driver p <> Raise KeyboardInterrupt) ->
      title driver <> Raise KeyboardInterrupt ->
      find_elements driver XPATH block_xpath = Ok [] ->
      find_elements driver CSS_SELECTOR flight_selector_1 = Ok [] ->
      find_elements driver CSS_SELECTOR flight_selector_2 = Ok [] ->
      find_elements driver CSS_SELECTOR flight_selector_3 = Ok [] ->
      find_elements driver CSS_SELECTOR miles_selector = Ok miles_elements ->
      collect_prices miles_elements [] = Ok miles_prices ->
      find_elements driver XPATH no_flights_xpath = Ok (e :: es) ->
      exists r,
        scrape_united.scrape_united_awards strftime_ymd origin destination date
          driver clock debug = Ok r /\
        dict_get "flights_found" r = Some (PInt 0) /\
        dict_get "min_miles" r = Some (PStr "N/A")) /\
  (forall driver clock url miles_elements miles_prices e es,
      current_url driver = Ok url ->
      sleep clock = Ok tt ->
      find_elements driver XPATH block_xpath = Ok [] ->
      find_elements driver CSS_SELECTOR flight_selector_1 = Ok [] ->
      find_elements driver CSS_SELECTOR flight_selector_2 = Ok [] ->
      find_elements driver CSS_SELECTOR flight_selector_3 = Ok [] ->
      find_elements driver CSS_SELECTOR miles_selector = Ok miles_elements ->
      collect_prices miles_elements [] = Ok miles_prices ->
      find_elements driver XPATH no_flights_xpath = Ok (e :: es) ->
      exists r,
        auto_scraper.extract_flight_data driver clock = Ok (Some r) /\
        dict_get "flights_found" r = Some (PInt 0) /\
        dict_get "min_miles" r = Some (PStr "N/A")).
Proof.
  split.
  - intros datetime strftime_ymd origin destination date driver clock debug
      miles_elements miles_prices e es
      Hget Hsleep Hshot Htitle Hblock H1 H2 H3 Hmiles Hprices Hnone.
    unfold scrape_united.scrape_united_awards. rewrite Hget. simpl.
    rewrite Hsleep. simpl. rewrite Hblock. simpl.
    rewrite (extraction_block_no_availability driver origin destination
               (strftime_ymd date) debug miles_elements miles_prices e es);
      auto using cascade_empty.
    simpl. eexists. split; [reflexivity|]. split; reflexivity.
  - intros driver clock url miles_elements miles_prices e es
      Hurl Hsleep Hblock H1 H2 H3 Hmiles Hprices Hnone.
    unfold auto_scraper.extract_flight_data. rewrite Hurl. simpl.
    rewrite Hsleep. simpl. rewrite Hblock. simpl.
    rewrite (cascade_empty driver H1 H2 H3). simpl.
    rewrite Hmiles. simpl. rewrite Hprices. simpl. rewrite Hnone. simpl.
    eexists. split; [reflexivity|]. split; reflexivity.
Qed.

Lemma C4_no_availability_override_witness :
  (exists r,
     scrape_united.scrape_united_awards january "ATL" "LAX" 0%nat
       (static_page results_url [] [] [] [] [element "12,500 miles"; element "8,000"]
          [element "No flights available"])
       noon true = Ok r /\
     dict_get "flights_found" r = Some (PInt 0) /\
     dict_get "min_miles" r = Some (PStr "N/A")) /\
  (exists r,
     auto_scraper.extract_flight_data
       (static_page results_url [] [] [] [] [element "12,500 miles"; element "8,000"]
          [element "No flights available"])
       noon = Ok (Some r) /\
     dict_get "flights_found" r = Some (PInt 0) /\
     dict_get "min_miles" r = Some (PStr "N/A")).
Proof.
  split.
  - apply (proj1 C4_no_availability_override nat january "ATL" "LAX" 0%nat
             _ noon true [element "12,500 miles"; element "8,000"] [12500; 8000]
             (element "No flights available") []);
      try reflexivity; discriminate.
  - apply (proj2 C4_no_availability_override _ noon results_url
             [element "12,500 miles"; element "8,000"] [12500; 8000]
             (element "No flights available") []); reflexivity.
Defined.

(** C9: no record returned by either extraction function has the integer 0
    as min_miles: the field is filled by a truth test, so a minimum of 0 (a
    price element whose digits are all zeros) is recorded as 'N/A'. *)
Theorem C9_min_miles_is_never_zero :
  (forall (datetime : Type) (strftime_ymd : datetime -> string)
          origin destination date driver clock debug r,
      scrape_united.scrape_united_awards strftime_ymd origin destination date
        driver clock debug = Ok r ->
      dict_get "min_miles" r <> Some (PInt 0)) /\
  (forall driver clock r,
      auto_scraper.extract_flight_data driver clock = Ok (Some r) ->
      dict_get "min_miles" r <> Some (PInt 0)) /\
  min_miles_field (Some 0) = PStr "N/A" /\
  parse_prices ["0,000 miles"; "12,500 miles"] = Ok [0; 12500] /\
  py_min [0; 12500] = Some 0 /\
  (forall url,
      auto_scraper.extract_flight_data
        (static_page url [] [element "card"] [] []
           [element "0,000 miles"; element "12,500 miles"] [])
        noon
      = Ok (Some [("origin", url_field "f=" code_group url);
                  ("destination", url_field "t=" code_group url);
                  ("date", url_field "d=" date_group url);
                  ("flights_found", PInt 1); ("min_miles", PStr "N/A");
                  ("scraped_at", PStr "2025-01-01T12:00:00")])).
Proof.
  split.
  - intros datetime strftime_ymd origin destination date driver clock debug r Hr.
    apply scrape_united_awards_shape in Hr as (found & miles & -> & Hcases). simpl.
    destruct Hcases as [[_ ->] | [[_ ->] | (l & _ & ->)]]; try discriminate.
    intros [= H]. now apply min_miles_field_not_zero in H.
  - split.
    + intros driver clock r Hr.
      apply extract_flight_data_shape in Hr as (url & found & miles & _ & -> & Hcases).
      simpl. destruct Hcases as [[_ ->] | (n & m & _ & ->)]; try discriminate.
      intros [= H]. now apply min_miles_field_not_zero in H.
    + repeat split; reflexivity.
Qed.

Lemma C9_min_miles_is_never_zero_witness :
  dict_get "min_miles"
    [("origin", PStr "ATL"); ("destination", PStr "LAX"); ("date", PStr "2025-01-01");
     ("flights_found", PInt 1); ("min_miles", PStr "N/A");
     ("scraped_at", PStr "2025-01-01T12:00:00")]
  <> Some (PInt 0).
Proof.
  apply (proj1 C9_min_miles_is_never_zero nat january "ATL" "LAX" 0%nat
           (static_page results_url [] [element "card"] [] []
              [element "0,000 miles"; element "12,500 miles"] [])
           noon false).
  reflexivity.
Defined.

Lemma int_acc_app acc a b : int_acc acc (a ++ b) = int_acc (int_acc acc a) b.
Proof.
  revert acc. induction a as [|c r IH]; intros acc; simpl; [reflexivity | apply IH].
Qed.

(** C10: an element with a digit in its text is to contribute exactly one
    value, the integer of all its digits taken together.  The code does so
    for decimal digits ("1 stop 12,500 miles" gives 112500), but a text with
    a digit that int() refuses, such as "12,500 miles" followed by a
    superscript one, contributes nothing: int() raises ValueError, and the
    prices collected before it are lost with it. *)
Theorem C10_digit_that_contributes_nothing :
  (exists c, In c (list_ascii_of_string footnoted_price) /\ isdigit c = true) /\
  add_price [8000] footnoted_price = Raise (Exception "ValueError") /\
  collect_prices [element "8,000"; element footnoted_price] []
    = Raise (Exception "ValueError") /\
  filter_str isdigit "1 stop 12,500 miles" = "112500" /\
  collect_prices [element "1 stop 12,500 miles"] [] = Ok [112500].
Proof.
  split.
  - exists "1"%char. split; [simpl; auto | reflexivity].
  - repeat split; vm_compute; reflexivity.
Qed.




(** * Facts about the record store *)

Lemma files_set_file filename rows w :
  files (set_file filename rows w) !! filename = Some rows.
Proof. unfold set_file. simpl. apply lookup_insert_eq. Qed.

Lemma files_set_file_other filename other rows w :
  filename <> other -> files (set_file filename rows w) !! other = files w !! other.
Proof. intros Hne. unfold set_file. simpl. now apply lookup_insert_ne. Qed.

Lemma file_rows_set_file filename rows w :
  file_rows filename (set_file filename rows w) = rows.
Proof. unfold file_rows. now rewrite files_set_file. Qed.

Lemma quit_calls_set_file filename rows w :
  quit_calls (set_file filename rows w) = quit_calls w.
Proof. reflexivity. Qed.

Lemma dict_to_row_six a b c d e f :
  dict_to_row [("origin", a); ("destination", b); ("date", c);
               ("flights_found", d); ("min_miles", e); ("scraped_at", f)]
  = Ok [a; b; c; d; e; f].
Proof. reflexivity. Qed.

Lemma save_to_csv_new flight_data row filename w :
  files w !! filename = None ->
  dict_to_row flight_data = Ok row ->
  auto_scraper.save_to_csv flight_data filename w
  = (true, set_file filename [header_row; row] w).
Proof.
  intros Hnew Hrow. unfold auto_scraper.save_to_csv, file_rows.
  now rewrite Hnew, Hrow.
Qed.

Lemma save_to_csv_existing flight_data row rows filename w :
  files w !! filename = Some rows ->
  dict_to_row flight_data = Ok row ->
  auto_scraper.save_to_csv flight_data filename w
  = (true, set_file filename (rows ++ [row]) w).
Proof.
  intros Hold Hrow. unfold auto_scraper.save_to_csv, file_rows.
  now rewrite Hold, Hrow.
Qed.

Lemma save_to_csv_keeps_rows flight_data rows filename w :
  files w !! filename = Some rows ->
  exists suffix,
    files (snd (auto_scraper.save_to_csv flight_data filename w)) !! filename
    = Some (rows ++ suffix)%list.
Proof.
  intros Hold. unfold auto_scraper.save_to_csv, file_rows. rewrite Hold.
  destruct (dict_to_row flight_data) as [row|e]; cbn [snd]; rewrite files_set_file.
  - now exists [row].
  - exists []. now rewrite app_nil_r.
Qed.

Lemma save_to_csv_other_files flight_data filename other w :
  filename <> other ->
  files (snd (auto_scraper.save_to_csv flight_data filename w)) !! other = files w !! other.
Proof.
  intros Hne. unfold auto_scraper.save_to_csv.
  destruct (dict_to_row flight_data); cbn [snd]; now apply files_set_file_other.
Qed.



(** * Facts about the two loops *)

(** One search of the batch loop, once the executor has answered a record:
    its row goes to the end of the output file. *)
Lemma search_step_appends {datetime : Type} (strftime_ymd : datetime -> string)
    env debug origin destination date current_search w r :
  scrape_united.scrape_united_awards strftime_ymd origin destination date
    (scrape_united.search_driver env (S current_search))
    (scrape_united.search_clock env (S current_search)) debug = Ok r ->
  exists row,
    dict_to_row r = Ok row /\
    snd (scrape_united.search_step strftime_ymd env debug origin destination date
           current_search w)
    = set_file scrape_united.output_file
        (file_rows scrape_united.output_file w ++ [row]) w /\
    (scrape_united.pacing_sleep env (S current_search) = Ok tt ->
     fst (scrape_united.search_step strftime_ymd env debug origin destination date
            current_search w) = Ok (S current_search)).
Proof.
  intros Hr. destruct (scrape_united_awards_shape _ _ _ _ _ _ _ _ Hr)
    as (found & miles & -> & _).
  eexists. split; [apply dict_to_row_six|].
  unfold scrape_united.search_step, io_bind, io_call, io_ret. rewrite Hr.
  cbn [dict_truthy]. rewrite dict_to_row_six.
  destruct (scrape_united.pacing_sleep env (S current_search)) as [[]|e];
    cbn [fst snd]; split; try reflexivity; discriminate.
Qed.

(** A loop whose every turn succeeds and advances a measure by one advances
    it by the number of turns. *)
Lemma for_each_steps {A S : Type} (P : nat -> S -> World -> Prop)
    (body : A -> S -> IO S) xs :
  (forall x n s w, In x xs -> P n s w ->
     exists s' w', body x s w = (Ok s', w') /\ P (Datatypes.S n) s' w') ->
  forall n s w, P n s w ->
    exists s' w', for_each xs body s w = (Ok s', w') /\ P (n + length xs)%nat s' w'.
Proof.
  induction xs as [|x rest IH]; intros Hbody n s w HP.
  - exists s, w. split; [reflexivity|]. now rewrite Nat.add_0_r.
  - destruct (Hbody x n s w (or_introl eq_refl) HP) as (s1 & w1 & E1 & HP1).
    destruct (IH (fun y k t v Hy => Hbody y k t v (or_intror Hy)) _ _ _ HP1)
      as (s2 & w2 & E2 & HP2).
    exists s2, w2. split.
    + simpl. unfold io_bind. now rewrite E1.
    + simpl length. now rewrite <- Nat.add_succ_comm.
Qed.

Lemma polling_timeout_spec timeout start_time polls :
  auto_scraper.polling timeout start_time polls = Some (Ok false) ->
  exists p, In p polls /\ timeout <= auto_scraper.poll_time p - start_time.
Proof.
  induction polls as [|p rest IH]; simpl; [discriminate|].
  destruct (Z.ltb_spec (auto_scraper.poll_time p - start_time) timeout) as [Hlt|Hge].
  - destruct (auto_scraper.poll_url p) as [u|e]; [|discriminate].
    destruct (_ || _)%bool; destruct (auto_scraper.poll_sleep p); try discriminate.
    intros H. destruct (IH H) as (q & Hq & Hle). exists q. auto.
  - intros _. exists p. auto.
Qed.

Lemma for_each_preserves {A S : Type} (I : World -> Prop) (body : A -> S -> IO S) xs :
  (forall x s w, I w -> I (snd (body x s w))) ->
  forall s w, I w -> I (snd (for_each xs body s w)).
Proof.
  intros Hbody. induction xs as [|x rest IH]; intros s w HI; simpl; [exact HI|].
  unfold io_bind. specialize (Hbody x s w HI).
  destruct (body x s w) as [[s'|e] w']; simpl in *; auto.
Qed.

Lemma search_step_quit_calls {datetime : Type} (strftime_ymd : datetime -> string)
    env debug origin destination date current_search w :
  quit_calls (snd (scrape_united.search_step strftime_ymd env debug origin destination
                     date current_search w)) = quit_calls w.
Proof.
  unfold scrape_united.search_step, io_bind, io_call, io_ret.
  destruct (scrape_united.scrape_united_awards _ _ _ _ _ _ _) as [r|e]; [|reflexivity].
  destruct (dict_truthy r); [destruct (dict_to_row r) as [row|e]|]; cbn [snd fst];
    try reflexivity;
    destruct (scrape_united.pacing_sleep env (S current_search)); reflexivity.
Qed.

(** The batch executor lets no [Exception] out: it answers a record, or a
    [KeyboardInterrupt] passes through it. *)
Lemma scrape_united_awards_absorbs {datetime : Type} (strftime_ymd : datetime -> string)
    origin destination date driver clock debug e :
  scrape_united.scrape_united_awards strftime_ymd origin destination date
    driver clock debug = Raise e ->
  e = KeyboardInterrupt.
Proof.
  unfold scrape_united.scrape_united_awards, except_Exception.
  destruct (get driver _) as [[]|[m|]]; simpl; try congruence.
  destruct (sleep clock) as [[]|[m|]]; simpl; try congruence.
  destruct (find_elements driver XPATH block_xpath) as [[|x xs]|[m|]]; simpl;
    try congruence.
  unfold body_except_Exception.
  destruct (scrape_united.extraction_block _ _ _ _ _ _) as [l [[]|[m|]]]; simpl;
    congruence.
Qed.

(** The login phase of the batch [main] stands before its [try]: a fault
    there leaves [main] at once, and [driver.quit()] is not reached. *)
Lemma batch_login_fault_skips_quit {datetime : Type} (strftime_ymd : datetime -> string)
    add_days test_mode debug env w e :
  scrape_united.setup_driver env = Ok tt ->
  (scrape_united.login_get env = Raise e \/
   (scrape_united.login_get env = Ok tt /\ scrape_united.login_sleep env = Raise e) \/
   (scrape_united.login_get env = Ok tt /\ scrape_united.login_sleep env = Ok tt /\
    scrape_united.login_input env = Raise e)) ->
  scrape_united.main strftime_ymd add_days test_mode debug true env w = (Raise e, w).
Proof.
  intros Hsetup H. unfold scrape_united.main, io_bind, io_call. rewrite Hsetup.
  destruct H as [H | [[Hg H] | (Hg & Hs & H)]].
  - now rewrite H.
  - now rewrite Hg, H.
  - now rewrite Hg, Hs, H.
Qed.

(** Once the batch [main] is past the login phase, [driver.quit()] is
    invoked exactly once, however the searches end. *)
Lemma batch_quits_once_after_login {datetime : Type} (strftime_ymd : datetime -> string)
    add_days test_mode debug manual_login env w :
  scrape_united.setup_driver env = Ok tt ->
  (manual_login = true ->
   scrape_united.login_get env = Ok tt /\ scrape_united.login_sleep env = Ok tt /\
   exists s, scrape_united.login_input env = Ok s) ->
  quit_calls (snd (scrape_united.main strftime_ymd add_days test_mode debug manual_login
                     env w)) = S (quit_calls w).
Proof.
  intros Hsetup Hlogin. unfold scrape_united.main, io_bind at 1 2, io_call.
  rewrite Hsetup.
  assert (Hpre :
    (if manual_login
     then io_bind (fun w0 => (scrape_united.login_get env, w0)) (fun _ =>
          io_bind (fun w0 => (scrape_united.login_sleep env, w0)) (fun _ =>
          io_bind (fun w0 => (scrape_united.login_input env, w0)) (fun _ => io_ret tt)))
     else io_ret tt) w = (Ok tt, w)).
  { destruct manual_login; [|reflexivity].
    destruct (Hlogin eq_refl) as (Hg & Hs & s & Hi).
    unfold io_bind, io_ret. now rewrite Hg, Hs, Hi. }
  rewrite Hpre. unfold try_finally, driver_quit.
  match goal with |- context [io_bind ?m ?k] => set (body := io_bind m k) end.
  assert (Hbody : quit_calls (snd (body w)) = quit_calls w).
  { subst body. unfold io_bind at 1.
    match goal with |- context [io_bind (for_each ?xs ?b ?s) ?k] =>
      pose proof (for_each_preserves
        (fun v => quit_calls v = quit_calls w) b xs) as Hloop;
      set (loop := for_each xs b s) in * end.
    unfold io_bind, io_ret.
    assert (Hq : quit_calls (snd (loop (set_file scrape_united.output_file [header_row] w)))
                 = quit_calls w).
    { subst loop. apply Hloop; [|reflexivity].
      intros route s v Hv.
      apply (for_each_preserves (fun v => quit_calls v = quit_calls w)); [|exact Hv].
      intros date s' v' Hv'. now rewrite search_step_quit_calls. }
    destruct (loop _) as [[s|e] v]; exact Hq. }
  destruct (body w) as [r w1]. simpl in Hbody.
  destruct (scrape_united.quit_outcome env); simpl; now rewrite Hbody.
Qed.

(** A batch run that no [KeyboardInterrupt] cuts short leaves the header and
    one row for each search, and has called [driver.quit()] once. *)
Lemma batch_run_logs_every_search {datetime : Type} (strftime_ymd : datetime -> string)
    add_days test_mode debug manual_login env w :
  scrape_united.setup_driver env = Ok tt ->
  (manual_login = true ->
   scrape_united.login_get env = Ok tt /\ scrape_united.login_sleep env = Ok tt /\
   exists s, scrape_united.login_input env = Ok s) ->
  (forall k origin destination date,
     scrape_united.scrape_united_awards strftime_ymd origin destination date
       (scrape_united.search_driver env k) (scrape_united.search_clock env k) debug
     <> Raise KeyboardInterrupt) ->
  (forall k, scrape_united.pacing_sleep env k = Ok tt) ->
  length (file_rows scrape_united.output_file
            (snd (scrape_united.main strftime_ymd add_days test_mode debug manual_login
                    env w)))
  = (1 + length (if test_mode then firstn 1 scrape_united.generate_routes
                 else scrape_united.generate_routes)
         * (if test_mode then 2 else 365))%nat.
Proof.
  intros Hsetup Hlogin Hscrape Hpace.
  unfold scrape_united.main, io_bind at 1 2, io_call. rewrite Hsetup.
  assert (Hpre :
    (if manual_login
     then io_bind (fun w0 => (scrape_united.login_get env, w0)) (fun _ =>
          io_bind (fun w0 => (scrape_united.login_sleep env, w0)) (fun _ =>
          io_bind (fun w0 => (scrape_united.login_input env, w0)) (fun _ => io_ret tt)))
     else io_ret tt) w = (Ok tt, w)).
  { destruct manual_login; [|reflexivity].
    destruct (Hlogin eq_refl) as (Hg & Hs & s & Hi).
    unfold io_bind, io_ret. now rewrite Hg, Hs, Hi. }
  rewrite Hpre. clear Hpre.
  set (routes := if test_mode then firstn 1 scrape_united.generate_routes
                 else scrape_united.generate_routes).
  set (days := if test_mode then 2%nat else 365%nat).
  set (dates := map (add_days (scrape_united.start_date env)) (seq 0 days)).
  assert (Hdates : length dates = days).
  { subst dates. now rewrite length_map, length_seq. }
  set (P := fun (n : nat) (s : nat) (v : World) =>
              s = n /\ length (file_rows scrape_united.output_file v) = S n).
  assert (Hinner : forall route n s v, P n s v ->
    exists s' v',
      for_each dates (fun date current_search =>
        scrape_united.search_step strftime_ymd env debug (fst route) (snd route) date
          current_search) s v = (Ok s', v') /\ P (n + length dates)%nat s' v').
  { intros route. apply for_each_steps.
    intros date n s v _ [-> Hlen].
    destruct (scrape_united.scrape_united_awards strftime_ymd (fst route) (snd route) date
                (scrape_united.search_driver env (S n))
                (scrape_united.search_clock env (S n)) debug) as [r|e] eqn:Hr.
    - destruct (search_step_appends strftime_ymd env debug (fst route) (snd route)
                  date n v r Hr) as (row & _ & Hsnd & Hfst).
      specialize (Hfst (Hpace (S n))).
      destruct (scrape_united.search_step _ _ _ _ _ _ _ _) as [res v'].
      simpl in Hsnd, Hfst. subst res v'.
      eexists _, _. split; [reflexivity|]. split; [reflexivity|].
      rewrite file_rows_set_file, length_app, Hlen. simpl. lia.
    - apply scrape_united_awards_absorbs in Hr as Hki. subst e.
      now apply Hscrape in Hr. }
  set (Q := fun (m : nat) (s : nat) (v : World) => P (m * days)%nat s v).
  assert (Houter : exists s' v',
    for_each routes (fun route current_search =>
      for_each dates (fun date current_search0 =>
        scrape_united.search_step strftime_ymd env debug (fst route) (snd route) date
          current_search0) current_search) 0%nat
      (set_file scrape_united.output_file [header_row] w) = (Ok s', v') /\
    Q (0 + length routes)%nat s' v').
  { apply for_each_steps.
    - intros route m s v _ HQ. unfold Q in *.
      destruct (Hinner route _ _ _ HQ) as (s' & v' & E & HP).
      exists s', v'. split; [exact E|].
      rewrite Hdates in HP. now replace (S m * days)%nat with (m * days + days)%nat by lia.
    - unfold Q, P. simpl. split; [reflexivity|]. now rewrite file_rows_set_file. }
  destruct Houter as (s' & v' & E & [_ Hlen]).
  unfold try_finally, io_bind, io_ret, driver_quit. rewrite E.
  destruct (scrape_united.quit_outcome env); cbn [snd]; unfold file_rows in *;
    cbn [files]; rewrite Hlen; simpl; lia.
Qed.

(** * The interactive loop *)

Lemma main_turn_quit_calls t w r w' :
  auto_scraper.main_turn t w = Some (r, w') -> quit_calls w' = quit_calls w.
Proof.
  unfold auto_scraper.main_turn.
  destruct (auto_scraper.wait_for_search_results _ _) as [[[|]|e]|]; try discriminate;
    try (now intros [= _ <-]).
  destruct (auto_scraper.extract_flight_data _ _) as [[d|]|e];
    try (now intros [= _ <-]).
  destruct (dict_truthy d); intros [= _ <-]; [|reflexivity].
  unfold auto_scraper.save_to_csv. now destruct (dict_to_row d).
Qed.

Lemma main_loop_quit_calls ts w e w' :
  auto_scraper.main_loop ts w = Some (e, w') -> quit_calls w' = quit_calls w.
Proof.
  revert w. induction ts as [|t rest IH]; intros w; simpl; [discriminate|].
  destruct (auto_scraper.main_turn t w) as [[[[]|x] w1]|] eqn:E; try discriminate.
  - intros H. rewrite (IH _ H). eapply main_turn_quit_calls; eauto.
  - intros [= <- <-]. eapply main_turn_quit_calls; eauto.
Qed.

(** Whenever the interactive [main] returns after Chrome was opened,
    [driver.quit()] was invoked exactly once. *)
Lemma interactive_quits_once env w r w' :
  (exists s, auto_scraper.start_input env = Ok s) ->
  auto_scraper.setup_driver env = Ok tt ->
  auto_scraper.main env w = Some (r, w') ->
  quit_calls w' = S (quit_calls w).
Proof.
  intros Hstart Hsetup. unfold auto_scraper.main. rewrite Hsetup.
  destruct (auto_scraper.start_input env) as [s|e];
    [|destruct Hstart as [s H]; discriminate].
  unfold bind, driver_quit.
  destruct (auto_scraper.home_get env) as [[]|e1].
  - destruct (auto_scraper.login_input env) as [s1|e2].
    + destruct (auto_scraper.main_loop _ w) as [[e3 w1]|] eqn:E; [|discriminate].
      intros [= _ <-]. simpl. f_equal. eapply main_loop_quit_calls; eauto.
    + now intros [= _ <-].
  - now intros [= _ <-].
Qed.

(** The interactive [main] does return as soon as one turn ends by an
    exception. *)
Lemma main_loop_ends before t after w e :
  (forall t0 w0, In t0 before -> exists w1, auto_scraper.main_turn t0 w0 = Some (Ok tt, w1)) ->
  (forall w0, exists w1, auto_scraper.main_turn t w0 = Some (Raise e, w1)) ->
  exists w', auto_scraper.main_loop (before ++ t :: after) w = Some (e, w').
Proof.
  intros Hbefore Ht. revert w.
  induction before as [|b rest IH]; intros w; simpl.
  - destruct (Ht w) as (w1 & ->). eauto.
  - destruct (Hbefore b w (or_introl eq_refl)) as (w1 & ->).
    apply IH. intros t0 w0 Hin. apply Hbefore. now right.
Qed.

(** A session of three turns: a timeout, a search, then Ctrl+C.  The store
    holds the header and the one row of the search, and the driver was quit
    once. *)
Lemma interactive_session_example :
  exists w,
    auto_scraper.main (interactive_run [idle_turn; search_turn results_page; ctrl_c_turn])
      fresh_world = Some (Ok tt, w) /\
    quit_calls w = 1%nat /\
    files w !! auto_scraper.default_filename
    = Some [header_row;
            [PStr "ATL"; PStr "LAX"; PStr "2025-01-01"; PInt 2; PInt 8000;
             PStr "2025-01-01T12:00:00"]].
Proof. eexists. split; [reflexivity|]. split; vm_compute; reflexivity. Qed.

(** C7, as stated, fails in interactive mode: a turn that times out, and a
    turn whose extraction faults, return normally and leave the store as it
    was: no row stands for the attempt. *)
Lemma C7_timeout_and_fault_leave_no_row :
  auto_scraper.wait_for_search_results (auto_scraper.watch idle_turn) 300
    = Some (Ok false) /\
  auto_scraper.main_turn idle_turn fresh_world = Some (Ok tt, fresh_world) /\
  auto_scraper.extract_flight_data (stale_page results_url) noon = Ok None /\
  auto_scraper.main_turn (search_turn (stale_page results_url)) fresh_world
    = Some (Ok tt, fresh_world) /\
  files fresh_world !! auto_scraper.default_filename = None.
Proof. repeat split; reflexivity. Qed.

(** C7, amended: in batch mode every search whose executor call answers (a
    found, empty, 'BLOCKED' or 'ERROR' record: all it can do short of a
    Ctrl+C) appends exactly that record's row to the output file, and a run
    that no Ctrl+C cuts short leaves the header and one row for each search;
    in interactive mode a turn in which a results page was detected and the
    extraction answered a record ('BLOCKED' included) appends exactly that
    record's row (after the header when the file is new), while a turn that
    times out or whose extraction answers no record writes nothing. *)
Theorem C7_rows_per_attempt :
  (forall (datetime : Type) (strftime_ymd : datetime -> string)
          env debug origin destination date current_search w r,
      scrape_united.scrape_united_awards strftime_ymd origin destination date
        (scrape_united.search_driver env (S current_search))
        (scrape_united.search_clock env (S current_search)) debug = Ok r ->
      exists row,
        dict_to_row r = Ok row /\
        snd (scrape_united.search_step strftime_ymd env debug origin destination date
               current_search w)
        = set_file scrape_united.output_file
            (file_rows scrape_united.output_file w ++ [row]) w) /\
  (forall (datetime : Type) (strftime_ymd : datetime -> string)
          add_days test_mode debug manual_login env w,
      scrape_united.setup_driver env = Ok tt ->
      (manual_login = true ->
       scrape_united.login_get env = Ok tt /\ scrape_united.login_sleep env = Ok tt /\
       exists s, scrape_united.login_input env = Ok s) ->
      (forall k origin destination date,
         scrape_united.scrape_united_awards strftime_ymd origin destination date
           (scrape_united.search_driver env k) (scrape_united.search_clock env k) debug
         <> Raise KeyboardInterrupt) ->
      (forall k, scrape_united.pacing_sleep env k = Ok tt) ->
      length (file_rows scrape_united.output_file
                (snd (scrape_united.main strftime_ymd add_days test_mode debug
                        manual_login env w)))
      = (1 + length (if test_mode then firstn 1 scrape_united.generate_routes
                     else scrape_united.generate_routes)
             * (if test_mode then 2 else 365))%nat) /\
  (forall t w r,
      auto_scraper.wait_for_search_results (auto_scraper.watch t) 300 = Some (Ok true) ->
      auto_scraper.extract_flight_data (auto_scraper.page t) (auto_scraper.clock t)
        = Ok (Some r) ->
      exists row w',
        dict_to_row r = Ok row /\
        auto_scraper.main_turn t w = Some (Ok tt, w') /\
        files w' !! auto_scraper.default_filename
        = Some (match files w !! auto_scraper.default_filename with
                | Some rows => (rows ++ [row])%list
                | None => [header_row; row]
                end)) /\
  (forall t w,
      auto_scraper.wait_for_search_results (auto_scraper.watch t) 300 = Some (Ok false) ->
      auto_scraper.main_turn t w = Some (Ok tt, w)) /\
  (forall t w,
      auto_scraper.wait_for_search_results (auto_scraper.watch t) 300 = Some (Ok true) ->
      auto_scraper.extract_flight_data (auto_scraper.page t) (auto_scraper.clock t)
        = Ok None ->
      auto_scraper.main_turn t w = Some (Ok tt, w)).
Proof.
  split.
  { intros datetime strftime_ymd env debug origin destination date current_search w r Hr.
    destruct (search_step_appends strftime_ymd env debug origin destination date
                current_search w r Hr) as (row & Hrow & Hsnd & _).
    now exists row. }
  split; [intros; now apply batch_run_logs_every_search|].
  split.
  { intros t w r Hwait Hr. unfold auto_scraper.main_turn. rewrite Hwait, Hr.
    destruct (extract_flight_data_shape _ _ _ Hr) as (url & found & miles & _ & -> & _).
    cbn [dict_truthy].
    eexists _, _. split; [apply dict_to_row_six|]. split; [reflexivity|].
    destruct (files w !! auto_scraper.default_filename) as [rows|] eqn:E.
    - erewrite save_to_csv_existing by (eauto using dict_to_row_six).
      cbn [snd]. apply files_set_file.
    - erewrite save_to_csv_new by (eauto using dict_to_row_six).
      cbn [snd]. apply files_set_file. }
  split.
  - intros t w Hwait. unfold auto_scraper.main_turn. now rewrite Hwait.
  - intros t w Hwait Hr. unfold auto_scraper.main_turn. now rewrite Hwait, Hr.
Qed.

Lemma C7_rows_per_attempt_witness :
  length (file_rows scrape_united.output_file
            (snd (scrape_united.main january Nat.add true false true calm_run fresh_world)))
    = 3%nat /\
  auto_scraper.main_turn idle_turn fresh_world = Some (Ok tt, fresh_world) /\
  auto_scraper.main_turn (search_turn (stale_page results_url)) fresh_world
    = Some (Ok tt, fresh_world).
Proof.
  split.
  - apply (proj1 (proj2 C7_rows_per_attempt) nat january Nat.add true false true
             calm_run fresh_world).
    + reflexivity.
    + intros _. split; [reflexivity|]. split; [reflexivity|]. now exists "".
    + intros k origin destination date. unfold calm_run. cbn [scrape_united.search_driver].
      destruct (Nat.eqb k 1); discriminate.
    + reflexivity.
  - split.
    + apply (proj1 (proj2 (proj2 (proj2 C7_rows_per_attempt))) idle_turn fresh_world).
      reflexivity.
    + apply (proj2 (proj2 (proj2 (proj2 C7_rows_per_attempt)))
               (search_turn (stale_page results_url)) fresh_world); reflexivity.
Defined.

(** C2: in the batch [main] the login phase stands before the [try] whose
    [finally] quits the driver.  Chrome is open, the user presses Ctrl+C at
    the login prompt, and [main] is left with [driver.quit()] never invoked. *)
Theorem C2_login_interrupt_skips_teardown :
  scrape_united.setup_driver interrupted_login = Ok tt /\
  scrape_united.login_input interrupted_login = Raise KeyboardInterrupt /\
  scrape_united.main january Nat.add true false true interrupted_login fresh_world
    = (Raise KeyboardInterrupt, fresh_world) /\
  quit_calls (snd (scrape_united.main january Nat.add true false true
                     interrupted_login fresh_world)) = 0%nat.
Proof. repeat split; reflexivity. Qed.

(** * Facts about the URL conventions *)

Lemma app_String c a b : String c a ++ b = String c (a ++ b).
Proof. reflexivity. Qed.

Lemma app_EmptyString b : "" ++ b = b.
Proof. reflexivity. Qed.

Ltac push_app := rewrite ?app_String, ?app_EmptyString in *.

Lemma prefix_spec sub s :
  String.prefix sub s = true <-> exists post, s = sub ++ post.
Proof.
  revert s. induction sub as [|a sub IH]; intros s; simpl.
  - split; [intros _; now exists s | now destruct s].
  - destruct s as [|c r]; simpl.
    + split; [discriminate | intros (post & H); discriminate].
    + destruct (ascii_dec a c) as [->|Hne].
      * rewrite IH. split; intros (post & H); exists post; push_app; congruence.
      * split; [discriminate | intros (post & H); push_app; congruence].
Qed.

Lemma contains_unfold sub s :
  contains sub s =
  if String.prefix sub s then true
  else match s with
       | EmptyString => false
       | String _ r => contains sub r
       end.
Proof. now destruct s. Qed.

Lemma contains_spec sub s : contains sub s = true <-> occurs sub s.
Proof.
  unfold occurs. induction s as [|c r IH]; rewrite contains_unfold;
    destruct (String.prefix sub _) eqn:E.
  - apply prefix_spec in E as (post & E). split; [|reflexivity].
    intros _. now exists "", post.
  - split; [discriminate|]. intros (pre & post & H).
    destruct pre; [|discriminate]. push_app.
    assert (String.prefix sub "" = true) by (apply prefix_spec; eauto). congruence.
  - apply prefix_spec in E as (post & E). split; [|reflexivity].
    intros _. now exists "", post.
  - rewrite IH. split.
    + intros (pre & post & ->). now exists (String c pre), post.
    + intros (pre & post & H). destruct pre as [|c' pre]; push_app.
      * assert (String.prefix sub (String c r) = true) by (apply prefix_spec; eauto).
        congruence.
      * injection H as _ ->. eauto.
Qed.

Lemma drop_prefix_spec lit s rest : drop_prefix lit s = Some rest <-> s = lit ++ rest.
Proof.
  revert s. induction lit as [|a lit IH]; intros s; simpl.
  - push_app. split; congruence.
  - push_app. destruct s as [|c r]; [split; discriminate|].
    destruct (Ascii.eqb_spec a c) as [->|Hne].
    + rewrite IH. split; congruence.
    + split; [discriminate | congruence].
Qed.

Lemma match_atoms_spec group s g :
  match_atoms group s = Some g <->
  group_matches group g /\ exists post, s = g ++ post.
Proof.
  unfold group_matches. revert s g.
  induction group as [|a group IH]; intros s g; simpl.
  - split.
    + intros [= <-]. split; [constructor | now exists s].
    + intros [H _]. destruct g; [reflexivity | inversion H].
  - destruct s as [|c r].
    + split; [discriminate|]. intros [H (post & E)].
      destruct g; [inversion H | discriminate].
    + destruct (atom_matches a c) eqn:Hc.
      * destruct (match_atoms group r) as [g'|] eqn:Hr.
        -- apply IH in Hr as [Hg (post & ->)]. split.
           ++ intros [= <-]. split; [now constructor | now exists post].
           ++ intros [H (post' & E)]. destruct g as [|c' g]; [inversion H|].
              simpl in H, E. injection E as <- E. inversion H; subst.
              assert (match_atoms group (g' ++ post) = Some g) as Hm
                by (apply IH; split; [assumption | now exists post']).
              assert (match_atoms group (g' ++ post) = Some g') as Hm'
                by (apply IH; split; [assumption | now exists post]).
              congruence.
        -- split; [discriminate|]. intros [H (post & E)].
           destruct g as [|c' g]; [inversion H|]. simpl in H, E.
           injection E as <- ->. inversion H; subst.
           assert (match_atoms group (g ++ post) = Some g) as Hm
             by (apply IH; split; [assumption | now exists post]).
           congruence.
      * split; [discriminate|]. intros [H (post & E)].
        destruct g as [|c' g]; [inversion H|]. simpl in H, E.
        injection E as <- ->. inversion H; subst. congruence.
Qed.

Lemma match_here_spec lit group s g :
  match_here lit group s = Some g <->
  group_matches group g /\ exists post, s = lit ++ g ++ post.
Proof.
  unfold match_here. destruct (drop_prefix lit s) as [rest|] eqn:E.
  - apply drop_prefix_spec in E as ->. rewrite match_atoms_spec. split.
    + intros [Hg (post & ->)]. split; [assumption | now exists post].
    + intros [Hg (post & H)]. split; [assumption|]. exists post.
      revert H. clear. induction lit as [|a lit IHl]; push_app;
        [congruence | intros [= H]; auto].
  - split; [discriminate|]. intros [_ (post & ->)].
    assert (drop_prefix lit (lit ++ g ++ post) = Some (g ++ post))
      by now apply drop_prefix_spec.
    congruence.
Qed.

Lemma re_search_sound lit group s g :
  re_search lit group s = Some g ->
  group_matches group g /\ exists pre post, s = pre ++ lit ++ g ++ post.
Proof.
  induction s as [|c r IH]; simpl.
  - destruct (match_here lit group "") as [g'|] eqn:E; [|discriminate].
    intros [= <-]. apply match_here_spec in E as [Hg (post & E)].
    split; [assumption | now exists "", post].
  - destruct (match_here lit group (String c r)) as [g'|] eqn:E.
    + intros [= <-]. apply match_here_spec in E as [Hg (post & E)].
      split; [assumption | now exists "", post].
    + intros H. destruct (IH H) as [Hg (pre & post & ->)].
      split; [assumption | now exists (String c pre), post].
Qed.

Lemma re_search_complete lit group s :
  re_search lit group s = None ->
  forall pre g post, s = pre ++ lit ++ g ++ post -> ~ group_matches group g.
Proof.
  induction s as [|c r IH]; simpl.
  - destruct (match_here lit group "") as [g'|] eqn:E; [discriminate|].
    intros _ pre g post H Hg. destruct pre; [|discriminate]. simpl in H.
    assert (match_here lit group "" = Some g)
      by (apply match_here_spec; split; [assumption | now exists post]).
    congruence.
  - destruct (match_here lit group (String c r)) as [g'|] eqn:E; [discriminate|].
    intros Hr pre g post H Hg. destruct pre as [|c' pre]; simpl in H.
    + assert (match_here lit group (String c r) = Some g)
        by (apply match_here_spec; split; [assumption | now exists post]).
      congruence.
    + injection H as _ ->. exact (IH Hr pre g post eq_refl Hg).
Qed.

Lemma url_field_absent marker group url :
  ~ occurs marker url -> url_field marker group url = PNone.
Proof.
  intros Habsent. unfold url_field.
  destruct (contains marker url) eqn:E; [|reflexivity].
  now apply contains_spec in E.
Qed.

Lemma url_field_unmatched marker group url :
  occurs marker url ->
  (forall pre g post, url = pre ++ marker ++ g ++ post -> ~ group_matches group g) ->
  url_field marker group url = PStr "UNKNOWN".
Proof.
  intros Hocc Hnone. unfold url_field.
  apply contains_spec in Hocc. rewrite Hocc.
  destruct (re_search marker group url) as [g|] eqn:E; [|reflexivity].
  apply re_search_sound in E as [Hg (pre & post & ->)].
  now destruct (Hnone pre g post eq_refl).
Qed.

Lemma url_field_matched marker group url :
  (exists pre g post, url = pre ++ marker ++ g ++ post /\ group_matches group g) ->
  exists g,
    url_field marker group url = PStr g /\ group_matches group g /\
    exists pre post, url = pre ++ marker ++ g ++ post.
Proof.
  intros (pre & g & post & Hurl & Hg). unfold url_field.
  assert (Hocc : contains marker url = true).
  { apply contains_spec. now exists pre, (g ++ post). }
  rewrite Hocc.
  destruct (re_search marker group url) as [g'|] eqn:E.
  - exists g'. split; [reflexivity|]. now apply re_search_sound in E.
  - now destruct (re_search_complete _ _ _ E pre g post Hurl).
Qed.

Lemma code_group_spec g :
  group_matches code_group g <->
  exists a b c,
    g = String a (String b (String c "")) /\
    isupper_AZ a = true /\ isupper_AZ b = true /\ isupper_AZ c = true.
Proof.
  unfold group_matches, code_group. split.
  - intros H. destruct g as [|a [|b [|c [|d g]]]]; simpl in H;
      repeat match goal with
             | H : Forall2 _ _ _ |- _ => inversion H; clear H; subst
             end.
    exists a, b, c. auto.
  - intros (a & b & c & -> & Ha & Hb & Hc). simpl.
    repeat constructor; assumption.
Qed.

(** C8, as stated, fails: on a results URL without the three parameters the
    record holds [None] in origin, destination and date, not 'UNKNOWN'. *)
Lemma C8_absent_marker_leaves_None :
  ~ occurs "f=" bare_results_url /\
  auto_scraper.extract_flight_data
    (static_page bare_results_url [] [element "card"] [] [] [element "12,500 miles"] [])
    noon
  = Ok (Some [("origin", PNone); ("destination", PNone); ("date", PNone);
              ("flights_found", PInt 1); ("min_miles", PInt 12500);
              ("scraped_at", PStr "2025-01-01T12:00:00")]) /\
  PNone <> PStr "UNKNOWN".
Proof.
  split; [|split; [reflexivity | discriminate]].
  intros H. apply contains_spec in H. discriminate H.
Qed.

Lemma re_search_step lit group s :
  re_search lit group s =
  match match_here lit group s with
  | Some g => Some g
  | None => match s with
            | EmptyString => None
            | String _ r => re_search lit group r
            end
  end.
Proof. now destruct s. Qed.

(** The match [re_search] answers is the leftmost one. *)
Lemma re_search_first lit group s g :
  re_search lit group s = Some g ->
  exists pre post,
    s = pre ++ lit ++ g ++ post /\ group_matches group g /\
    forall pre' g' post',
      s = pre' ++ lit ++ g' ++ post' -> group_matches group g' ->
      (String.length pre <= String.length pre')%nat /\
      (String.length pre = String.length pre' -> g' = g).
Proof.
  revert g. induction s as [|c r IH]; intros g; rewrite re_search_step;
    destruct (match_here lit group _) as [g0|] eqn:E.
  - intros [= <-]. apply match_here_spec in E as Hm. destruct Hm as [Hg (post & Hs)].
    exists "", post. split; [exact Hs|]. split; [exact Hg|].
    intros pre' g' post' Hs' Hg'. split; [simpl; lia|].
    intros Hlen. destruct pre'; [|discriminate]. push_app.
    assert (match_here lit group "" = Some g')
      by (apply match_here_spec; split; [assumption | now exists post']).
    congruence.
  - discriminate.
  - intros [= <-]. apply match_here_spec in E as Hm. destruct Hm as [Hg (post & Hs)].
    exists "", post. split; [exact Hs|]. split; [exact Hg|].
    intros pre' g' post' Hs' Hg'. split; [simpl; lia|].
    intros Hlen. destruct pre'; [|discriminate]. push_app.
    assert (match_here lit group (String c r) = Some g')
      by (apply match_here_spec; split; [assumption | now exists post']).
    congruence.
  - intros H. destruct (IH g H) as (pre & post & -> & Hg & Hleft).
    exists (String c pre), post. split; [reflexivity|]. split; [exact Hg|].
    intros pre' g' post' Hs' Hg'. destruct pre' as [|c' pre']; push_app.
    + assert (match_here lit group (String c (pre ++ lit ++ g ++ post)) = Some g')
        by (apply match_here_spec; split; [assumption | now exists post']).
      congruence.
    + injection Hs' as _ Hs'. destruct (Hleft pre' g' post' Hs' Hg') as [Hle Heq].
      simpl. split; [lia | intros; apply Heq; lia].
Qed.

Lemma url_field_first marker group url :
  (exists pre g post, url = pre ++ marker ++ g ++ post /\ group_matches group g) ->
  exists g pre post,
    url_field marker group url = PStr g /\ group_matches group g /\
    url = pre ++ marker ++ g ++ post /\
    forall pre' g' post',
      url = pre' ++ marker ++ g' ++ post' -> group_matches group g' ->
      (String.length pre <= String.length pre')%nat /\
      (String.length pre = String.length pre' -> g' = g).
Proof.
  intros (pre0 & g0 & post0 & Hurl & Hg0). unfold url_field.
  assert (Hocc : contains marker url = true).
  { apply contains_spec. now exists pre0, (g0 ++ post0). }
  rewrite Hocc.
  destruct (re_search marker group url) as [g|] eqn:E.
  - destruct (re_search_first _ _ _ _ E) as (pre & post & Hs & Hg & Hleft).
    exists g, pre, post. auto.
  - now destruct (re_search_complete _ _ _ E pre0 g0 post0 Hurl).
Qed.

Lemma url_field_reads marker group url :
  reads_param marker group url (url_field marker group url).
Proof.
  unfold reads_param.
  destruct (contains marker url) eqn:Hocc.
  - apply contains_spec in Hocc as Hocc'.
    destruct (re_search marker group url) as [g|] eqn:E.
    + right; right.
      destruct (re_search_first _ _ _ _ E) as (pre & post & Hs & Hg & Hleft).
      exists pre, g, post. unfold url_field. rewrite Hocc, E. auto.
    + right; left. split; [exact Hocc'|]. split.
      * now apply re_search_complete.
      * unfold url_field. now rewrite Hocc, E.
  - left. split.
    + intros H. apply contains_spec in H. congruence.
    + unfold url_field. now rewrite Hocc.
Qed.

Lemma date_group_shape g :
  group_matches date_group g <->
  exists y1 y2 y3 y4 m1 m2 d1 d2,
    g = String y1 (String y2 (String y3 (String y4 (String "-"
          (String m1 (String m2 (String "-" (String d1 (String d2 ""))))))))) /\
    Forall (fun c => isdecimal c = true) [y1; y2; y3; y4; m1; m2; d1; d2].
Proof.
  unfold group_matches, date_group. split.
  - intros H.
    destruct g as [|c1 [|c2 [|c3 [|c4 [|c5 [|c6 [|c7 [|c8 [|c9 [|c10 [|c11 g]]]]]]]]]]];
      simpl in H;
      repeat match goal with
             | H : Forall2 _ _ _ |- _ => inversion H; clear H; subst
             end.
    simpl in *.
    repeat match goal with
           | H : Ascii.eqb _ _ = true |- _ => apply Ascii.eqb_eq in H; subst
           end.
    exists c1, c2, c3, c4, c6, c7, c9, c10. split; [reflexivity|].
    repeat constructor; assumption.
  - intros (y1 & y2 & y3 & y4 & m1 & m2 & d1 & d2 & -> & H).
    repeat match goal with
           | H : Forall _ (_ :: _) |- _ => apply Forall_cons_iff in H as [? H]
           end.
    simpl. repeat constructor; assumption.
Qed.

(** C8, amended: the record's origin, destination and date are read off the
    current URL by the markers f=, t= and d=.  A field is the text of the
    group at the first place where the marker is followed by it (three
    capitals A-Z; for the date, digits shaped YYYY-MM-DD): no occurrence of
    the marker further left is followed by such a group.  It is 'UNKNOWN'
    when the marker occurs in the URL and is nowhere followed by such a
    group; and it is None when the marker does not occur in the URL at all. *)
Theorem C8_url_fields :
  (forall driver clock r,
      auto_scraper.extract_flight_data driver clock = Ok (Some r) ->
      exists url,
        current_url driver = Ok url /\
        dict_get "origin" r = Some (url_field "f=" code_group url) /\
        dict_get "destination" r = Some (url_field "t=" code_group url) /\
        dict_get "date" r = Some (url_field "d=" date_group url)) /\
  (forall marker group url,
      (~ occurs marker url -> url_field marker group url = PNone) /\
      (occurs marker url ->
       (forall pre g post, url = pre ++ marker ++ g ++ post -> ~ group_matches group g) ->
       url_field marker group url = PStr "UNKNOWN") /\
      ((exists pre g post, url = pre ++ marker ++ g ++ post /\ group_matches group g) ->
       exists g pre post,
         url_field marker group url = PStr g /\ group_matches group g /\
         url = pre ++ marker ++ g ++ post /\
         forall pre' g' post',
           url = pre' ++ marker ++ g' ++ post' -> group_matches group g' ->
           (String.length pre <= String.length pre')%nat /\
           (String.length pre = String.length pre' -> g' = g))) /\
  (forall g,
      group_matches code_group g <->
      exists a b c,
        g = String a (String b (String c "")) /\
        isupper_AZ a = true /\ isupper_AZ b = true /\ isupper_AZ c = true) /\
  (forall g,
      group_matches date_group g <->
      exists y1 y2 y3 y4 m1 m2 d1 d2,
        g = String y1 (String y2 (String y3 (String y4 (String "-"
              (String m1 (String m2 (String "-" (String d1 (String d2 ""))))))))) /\
        Forall (fun c => isdecimal c = true) [y1; y2; y3; y4; m1; m2; d1; d2]) /\
  (forall driver clock r,
      auto_scraper.extract_flight_data driver clock = Ok (Some r) ->
      exists url origin destination date,
        current_url driver = Ok url /\
        dict_get "origin" r = Some origin /\ reads_param "f=" code_group url origin /\
        dict_get "destination" r = Some destination /\
        reads_param "t=" code_group url destination /\
        dict_get "date" r = Some date /\ reads_param "d=" date_group url date).
Proof.
  split.
  { intros driver clock r Hr.
    apply extract_flight_data_shape in Hr as (url & found & miles & Hurl & -> & _).
    exists url. repeat split; [exact Hurl|..]; reflexivity. }
  split.
  { intros marker group url. split; [apply url_field_absent|].
    split; [apply url_field_unmatched | apply url_field_first]. }
  split; [exact code_group_spec|]. split; [exact date_group_shape|].
  intros driver clock r Hr.
  apply extract_flight_data_shape in Hr as (url & found & miles & Hurl & -> & _).
  exists url, (url_field "f=" code_group url), (url_field "t=" code_group url),
    (url_field "d=" date_group url).
  split; [exact Hurl|].
  split; [reflexivity|]. split; [apply url_field_reads|].
  split; [reflexivity|]. split; [apply url_field_reads|].
  split; [reflexivity | apply url_field_reads].
Qed.

Lemma C8_url_fields_witness :
  (exists url,
     current_url results_page = Ok url /\
     dict_get "origin" (sample_row "ATL" "LAX" 2 (PInt 8000))
       = Some (url_field "f=" code_group url) /\
     dict_get "destination" (sample_row "ATL" "LAX" 2 (PInt 8000))
       = Some (url_field "t=" code_group url) /\
     dict_get "date" (sample_row "ATL" "LAX" 2 (PInt 8000))
       = Some (url_field "d=" date_group url)) /\
  url_field "f=" code_group bare_results_url = PNone /\
  url_field "f=" code_group "https://www.united.com/en/us/fsr/choose-flights?f=atl"
    = PStr "UNKNOWN" /\
  (exists g pre post,
     url_field "f=" code_group two_origins_url = PStr g /\
     group_matches code_group g /\
     two_origins_url = pre ++ "f=" ++ g ++ post /\
     forall pre' g' post',
       two_origins_url = pre' ++ "f=" ++ g' ++ post' -> group_matches code_group g' ->
       (String.length pre <= String.length pre')%nat /\
       (String.length pre = String.length pre' -> g' = g)) /\
  url_field "f=" code_group two_origins_url = PStr "ATL".
Proof.
  split.
  - apply (proj1 C8_url_fields results_page noon (sample_row "ATL" "LAX" 2 (PInt 8000))).
    reflexivity.
  - split.
    + apply (proj1 (proj1 (proj2 C8_url_fields) "f=" code_group bare_results_url)).
      intros H. apply contains_spec in H. discriminate H.
    + split; [reflexivity|]. split; [|reflexivity].
      apply (proj2 (proj2 (proj1 (proj2 C8_url_fields) "f=" code_group two_origins_url))).
      exists "https://www.united.com/en/us/fsr/choose-flights?f=ATL&bf=1&", "ORD", "&t=LAX".
      split; [reflexivity | repeat constructor].
Defined.

(** * Further properties: the route generator *)

Lemma generate_routes_over : scrape_united.generate_routes = routes_over scrape_united.AIRPORTS.
Proof. reflexivity. Qed.

Lemma in_routes_over airports origin destination :
  In (origin, destination) (routes_over airports) <->
  In origin airports /\ In destination airports /\ origin <> destination.
Proof.
  unfold routes_over. rewrite in_flat_map. split.
  - intros (o & Ho & Hin). apply in_flat_map in Hin as (d & Hd & Hin).
    destruct (String.eqb_spec o d) as [->|Hne]; simpl in Hin; [contradiction|].
    destruct Hin as [[= <- <-]|[]]. auto.
  - intros (Ho & Hd & Hne). exists origin. split; [exact Ho|].
    apply in_flat_map. exists destination. split; [exact Hd|].
    destruct (String.eqb_spec origin destination); [contradiction | now left].
Qed.

Lemma routes_from_length origin airports :
  List.NoDup airports ->
  length (flat_map (fun destination =>
            if negb (String.eqb origin destination) then [(origin, destination)] else [])
            airports)
  = if existsb (String.eqb origin) airports
    then Nat.pred (length airports) else length airports.
Proof.
  induction airports as [|a rest IH]; intros Hnd; [reflexivity|].
  apply NoDup_cons_iff in Hnd as [Hnotin Hnd]. simpl.
  rewrite length_app, (IH Hnd).
  destruct (String.eqb_spec origin a) as [->|Hne]; simpl.
  - destruct (existsb (String.eqb a) rest) eqn:E; [|reflexivity].
    apply existsb_exists in E as (x & Hx & Hax). apply String.eqb_eq in Hax. now subst.
  - destruct (existsb (String.eqb origin) rest) eqn:E; [|reflexivity].
    apply existsb_exists in E as (x & Hx & _). now destruct rest.
Qed.

Lemma routes_over_length airports :
  List.NoDup airports ->
  length (routes_over airports) = (length airports * Nat.pred (length airports))%nat.
Proof.
  intros Hnd. unfold routes_over.
  assert (H : forall origins, (forall o, In o origins -> In o airports) ->
    length (flat_map (fun origin =>
              flat_map (fun destination =>
                if negb (String.eqb origin destination) then [(origin, destination)] else [])
                airports) origins)
    = (length origins * Nat.pred (length airports))%nat).
  { induction origins as [|o rest IH]; intros Hsub; [reflexivity|].
    simpl. rewrite length_app, IH by (intros; apply Hsub; now right).
    rewrite (routes_from_length o airports Hnd).
    assert (existsb (String.eqb o) airports = true) as ->; [|reflexivity].
    apply existsb_exists. exists o. split; [apply Hsub; now left | apply String.eqb_refl]. }
  now apply H.
Qed.

Lemma routes_from_NoDup origin airports :
  List.NoDup airports ->
  List.NoDup (flat_map (fun destination =>
           if negb (String.eqb origin destination) then [(origin, destination)] else [])
           airports).
Proof.
  induction airports as [|a rest IH]; intros Hnd; [constructor|].
  apply NoDup_cons_iff in Hnd as [Hnotin Hnd]. simpl.
  destruct (negb (String.eqb origin a)); simpl; [|now apply IH].
  constructor; [|now apply IH].
  intros Hin. apply in_flat_map in Hin as (d & Hd & Hin).
  destruct (negb (String.eqb origin d)); simpl in Hin; [|contradiction].
  destruct Hin as [[= <-]|[]]. contradiction.
Qed.

Lemma routes_over_NoDup airports : List.NoDup airports -> List.NoDup (routes_over airports).
Proof.
  intros Hnd. unfold routes_over.
  assert (H : forall origins, List.NoDup origins ->
    List.NoDup (flat_map (fun origin =>
             flat_map (fun destination =>
               if negb (String.eqb origin destination) then [(origin, destination)] else [])
               airports) origins)).
  { induction origins as [|o rest IH]; intros Ho; [constructor|].
    apply NoDup_cons_iff in Ho as [Hnotin Ho]. simpl.
    apply NoDup_ListNoDup, NoDup_app.
    split; [apply NoDup_ListNoDup; now apply routes_from_NoDup|].
    split; [|apply NoDup_ListNoDup; now apply IH].
    intros [o1 d1] Hin1 Hin2. apply list_elem_of_In in Hin1, Hin2.
    apply in_flat_map in Hin1 as (d & _ & Hin1).
    destruct (negb (String.eqb o d)); simpl in Hin1; [|contradiction].
    destruct Hin1 as [[= <- <-]|[]].
    apply in_flat_map in Hin2 as (o2 & Ho2 & Hin2).
    apply in_flat_map in Hin2 as (d2 & _ & Hin2).
    destruct (negb (String.eqb o2 d2)); simpl in Hin2; [|contradiction].
    destruct Hin2 as [[= <- <-]|[]]. contradiction. }
  now apply H.
Qed.

(** X1: a pair is among the generated routes exactly when both its codes are
    in AIRPORTS and they differ: every ordered pair of distinct airports is
    there, and no route goes from an airport to itself. *)
Theorem X1_routes_are_the_distinct_pairs :
  forall origin destination,
    In (origin, destination) scrape_united.generate_routes <->
    In origin scrape_united.AIRPORTS /\ In destination scrape_united.AIRPORTS /\
    origin <> destination.
Proof.
  intros origin destination. rewrite generate_routes_over. apply in_routes_over.
Qed.

(** X2: over any list of N distinct codes the nested loop of generate_routes
    gives N*(N-1) routes, none twice; AIRPORTS holds 50 distinct codes, so
    generate_routes gives 2450 routes without repetition. *)
Theorem X2_route_count :
  (forall airports,
      List.NoDup airports ->
      length (routes_over airports) = (length airports * Nat.pred (length airports))%nat /\
      List.NoDup (routes_over airports)) /\
  scrape_united.generate_routes = routes_over scrape_united.AIRPORTS /\
  List.NoDup scrape_united.AIRPORTS /\
  length scrape_united.AIRPORTS = 50%nat /\
  length scrape_united.generate_routes = 2450%nat /\
  List.NoDup scrape_united.generate_routes.
Proof.
  assert (Hnd : List.NoDup scrape_united.AIRPORTS).
  { apply NoDup_ListNoDup.
    apply (bool_decide_unpack (NoDup scrape_united.AIRPORTS)). vm_compute. exact I. }
  split; [intros airports H; split; [now apply routes_over_length | now apply routes_over_NoDup]|].
  split; [reflexivity|]. split; [exact Hnd|]. split; [reflexivity|].
  split; [reflexivity|].
  rewrite generate_routes_over. now apply routes_over_NoDup.
Qed.

Lemma X2_route_count_witness :
  length (routes_over ["ATL"; "LAX"; "ORD"]) = 6%nat /\
  List.NoDup (routes_over ["ATL"; "LAX"; "ORD"]).
Proof.
  apply (proj1 X2_route_count ["ATL"; "LAX"; "ORD"]).
  repeat constructor; simpl; intuition discriminate.
Defined.

(** * Further properties: the polling loop *)

Lemma polling_waiting timeout start_time p rest :
  waiting_poll timeout start_time p ->
  auto_scraper.polling timeout start_time (p :: rest)
  = auto_scraper.polling timeout start_time rest.
Proof.
  intros (Htime & url & Hurl & Hres & Hsleep). simpl.
  apply Z.ltb_lt in Htime. rewrite Htime, Hurl. unfold is_results_url in Hres.
  now rewrite Hres, Hsleep.
Qed.

Lemma polling_skips timeout start_time before rest :
  Forall (waiting_poll timeout start_time) before ->
  auto_scraper.polling timeout start_time (before ++ rest)
  = auto_scraper.polling timeout start_time rest.
Proof.
  induction 1 as [|p before Hp _ IH]; [reflexivity|].
  rewrite <- app_comm_cons, polling_waiting by assumption. exact IH.
Qed.

(** Either a prefix of the polls kept the loop waiting and the next one
    decided, or all of them kept it waiting. *)
Lemma polling_decided timeout start_time polls r :
  auto_scraper.polling timeout start_time polls = Some r ->
  exists before p after,
    polls = (before ++ p :: after)%list /\
    Forall (waiting_poll timeout start_time) before /\
    ~ waiting_poll timeout start_time p /\
    auto_scraper.polling timeout start_time [p] = Some r.
Proof.
  induction polls as [|p rest IH]; [discriminate|].
  intros H.
  destruct (Z.ltb_spec (auto_scraper.poll_time p - start_time) timeout) as [Hlt|Hge].
  - destruct (auto_scraper.poll_url p) as [url|e] eqn:Hurl.
    + destruct (is_results_url url) eqn:Hres.
      * exists [], p, rest. split; [reflexivity|]. split; [constructor|]. split.
        -- intros (_ & url' & Hurl' & Hres' & _). congruence.
        -- revert H. simpl. apply Z.ltb_lt in Hlt. rewrite Hlt, Hurl.
           unfold is_results_url in Hres. rewrite Hres.
           now destruct (auto_scraper.poll_sleep p).
      * destruct (auto_scraper.poll_sleep p) as [[]|e] eqn:Hsleep.
        -- assert (Hw : waiting_poll timeout start_time p).
           { split; [exact Hlt|]. now exists url. }
           rewrite polling_waiting in H by exact Hw.
           destruct (IH H) as (before & q & after & -> & Hbefore & Hq & Hr).
           exists (p :: before), q, after. split; [reflexivity|].
           split; [now constructor|]. now split.
        -- exists [], p, rest. split; [reflexivity|]. split; [constructor|]. split.
           ++ intros (_ & url' & _ & _ & Hs). congruence.
           ++ revert H. simpl. apply Z.ltb_lt in Hlt. rewrite Hlt, Hurl.
              unfold is_results_url in Hres. now rewrite Hres, Hsleep.
    + exists [], p, rest. split; [reflexivity|]. split; [constructor|]. split.
      * intros (_ & url' & Hurl' & _). congruence.
      * revert H. simpl. apply Z.ltb_lt in Hlt. now rewrite Hlt, Hurl.
  - exists [], p, rest. split; [reflexivity|]. split; [constructor|]. split.
    + intros (Hlt & _). lia.
    + revert H. simpl. apply Z.ltb_ge in Hge. now rewrite Hge.
Qed.

(** X3: wait_for_search_results answers True exactly when, after polls that
    all kept it waiting, a poll still within the timeout reads a URL that
    contains 'choose-flights' or 'fsr' and the settle sleep is not disturbed. *)
Theorem X3_results_detected_iff :
  forall watch timeout,
    auto_scraper.wait_for_search_results watch timeout = Some (Ok true) <->
    (exists url0, auto_scraper.first_url watch = Ok url0) /\
    exists before p after url,
      auto_scraper.polls watch = (before ++ p :: after)%list /\
      Forall (waiting_poll timeout (auto_scraper.start_time watch)) before /\
      auto_scraper.poll_time p - auto_scraper.start_time watch < timeout /\
      auto_scraper.poll_url p = Ok url /\ is_results_url url = true /\
      auto_scraper.poll_sleep p = Ok tt.
Proof.
  intros watch timeout. unfold auto_scraper.wait_for_search_results. split.
  - destruct (auto_scraper.first_url watch) as [url0|e]; [|discriminate].
    intros H. split; [now exists url0|].
    destruct (polling_decided _ _ _ _ H) as (before & p & after & Hpolls & Hbefore & _ & Hp).
    exists before, p, after. revert Hp. simpl.
    destruct (Z.ltb_spec (auto_scraper.poll_time p - auto_scraper.start_time watch) timeout);
      [|discriminate].
    destruct (auto_scraper.poll_url p) as [url|e]; [|discriminate].
    fold (is_results_url url). destruct (is_results_url url) eqn:Hres;
      destruct (auto_scraper.poll_sleep p) as [[]|e]; try discriminate.
    intros _. now exists url.
  - intros [(url0 & ->) (before & p & after & url & -> & Hbefore & Hlt & Hurl & Hres & Hsleep)].
    rewrite polling_skips by exact Hbefore. simpl.
    apply Z.ltb_lt in Hlt. rewrite Hlt, Hurl. unfold is_results_url in Hres.
    now rewrite Hres, Hsleep.
Qed.

(** X4: wait_for_search_results answers False exactly when, after polls that
    all kept it waiting, the clock read at the loop test has reached the
    timeout; the URL of that moment is not looked at, so a results page that
    shows up only then is missed. *)
Theorem X4_timeout_iff :
  forall watch timeout,
    auto_scraper.wait_for_search_results watch timeout = Some (Ok false) <->
    (exists url0, auto_scraper.first_url watch = Ok url0) /\
    exists before p after,
      auto_scraper.polls watch = (before ++ p :: after)%list /\
      Forall (waiting_poll timeout (auto_scraper.start_time watch)) before /\
      timeout <= auto_scraper.poll_time p - auto_scraper.start_time watch.
Proof.
  intros watch timeout. unfold auto_scraper.wait_for_search_results. split.
  - destruct (auto_scraper.first_url watch) as [url0|e]; [|discriminate].
    intros H. split; [now exists url0|].
    destruct (polling_decided _ _ _ _ H) as (before & p & after & Hpolls & Hbefore & _ & Hp).
    exists before, p, after. revert Hp. simpl.
    destruct (Z.ltb_spec (auto_scraper.poll_time p - auto_scraper.start_time watch) timeout);
      [|now intros _].
    destruct (auto_scraper.poll_url p) as [url|e]; [|discriminate].
    destruct (_ || _)%bool; destruct (auto_scraper.poll_sleep p) as [[]|e]; discriminate.
  - intros [(url0 & ->) (before & p & after & -> & Hbefore & Hge)].
    rewrite polling_skips by exact Hbefore. simpl.
    apply Z.ltb_ge in Hge. now rewrite Hge.
Qed.

(** X5: wait_for_search_results has no handler of its own.  It raises e
    exactly when the first read of the URL raises e, or when, after polls
    that all kept it waiting, a poll still within the timeout raises e in its
    read of the URL or, the URL read, in its sleep. *)
Theorem X5_polling_faults :
  forall watch timeout e,
    auto_scraper.wait_for_search_results watch timeout = Some (Raise e) <->
    auto_scraper.first_url watch = Raise e \/
    ((exists url0, auto_scraper.first_url watch = Ok url0) /\
     exists before p after,
       auto_scraper.polls watch = (before ++ p :: after)%list /\
       Forall (waiting_poll timeout (auto_scraper.start_time watch)) before /\
       auto_scraper.poll_time p - auto_scraper.start_time watch < timeout /\
       (auto_scraper.poll_url p = Raise e \/
        ((exists url, auto_scraper.poll_url p = Ok url) /\
         auto_scraper.poll_sleep p = Raise e))).
Proof.
  intros watch timeout e. unfold auto_scraper.wait_for_search_results. split.
  - destruct (auto_scraper.first_url watch) as [url0|e0]; [|intros [= ->]; now left].
    intros H. right. split; [now exists url0|].
    destruct (polling_decided _ _ _ _ H) as (before & p & after & Hpolls & Hbefore & _ & Hp).
    exists before, p, after. revert Hp. simpl.
    destruct (Z.ltb_spec (auto_scraper.poll_time p - auto_scraper.start_time watch) timeout);
      [|discriminate].
    destruct (auto_scraper.poll_url p) as [url|e1]; [|intros [= ->]; auto 6].
    destruct (_ || _)%bool; destruct (auto_scraper.poll_sleep p) as [[]|e1];
      try discriminate; intros [= ->]; repeat split; auto; right; split; eauto.
  - intros [H | [(url0 & Hfirst) (before & p & after & Hpolls & Hbefore & Hlt & Hp)]].
    + now rewrite H.
    + rewrite Hfirst, Hpolls, polling_skips by exact Hbefore. simpl.
      apply Z.ltb_lt in Hlt. rewrite Hlt.
      destruct Hp as [Hurl | [(url & Hurl) Hsleep]]; rewrite Hurl; [reflexivity|].
      rewrite Hsleep. now destruct (_ || _)%bool.
Qed.

(** * Further properties: reading the URL *)

Lemma re_search_unfold lit group s :
  re_search lit group s =
  match match_here lit group s with
  | Some g => Some g
  | None => match s with
            | EmptyString => None
            | String _ r => re_search lit group r
            end
  end.
Proof. now destruct s. Qed.

(** X6: re.search answers the leftmost match: the group it returns stands
    behind an occurrence of the literal, and no occurrence further left is
    followed by a well-formed group; conversely the group behind the leftmost
    such occurrence is what it returns. *)
Theorem X6_re_search_is_leftmost :
  forall lit group s g,
    re_search lit group s = Some g <->
    exists pre post,
      s = pre ++ lit ++ g ++ post /\ group_matches group g /\
      forall pre' g' post',
        s = pre' ++ lit ++ g' ++ post' -> group_matches group g' ->
        (String.length pre <= String.length pre')%nat /\
        (String.length pre = String.length pre' -> g' = g).
Proof.
  intros lit group s g. split.
  - revert g. induction s as [|c r IH]; intros g; rewrite re_search_unfold;
      destruct (match_here lit group _) as [g0|] eqn:E.
    + intros [= <-]. apply match_here_spec in E as Hm. destruct Hm as [Hg (post & Hs)].
      exists "", post. split; [exact Hs|]. split; [exact Hg|].
      intros pre' g' post' Hs' Hg'. split; [simpl; lia|].
      intros Hlen. destruct pre'; [|discriminate]. push_app.
      assert (match_here lit group "" = Some g')
        by (apply match_here_spec; split; [assumption | now exists post']).
      congruence.
    + discriminate.
    + intros [= <-]. apply match_here_spec in E as Hm. destruct Hm as [Hg (post & Hs)].
      exists "", post. split; [exact Hs|]. split; [exact Hg|].
      intros pre' g' post' Hs' Hg'. split; [simpl; lia|].
      intros Hlen. destruct pre'; [|discriminate]. push_app.
      assert (match_here lit group (String c r) = Some g')
        by (apply match_here_spec; split; [assumption | now exists post']).
      congruence.
    + intros H. destruct (IH g H) as (pre & post & -> & Hg & Hleft).
      exists (String c pre), post. split; [reflexivity|]. split; [exact Hg|].
      intros pre' g' post' Hs' Hg'. destruct pre' as [|c' pre']; push_app.
      * assert (match_here lit group (String c (pre ++ lit ++ g ++ post)) = Some g')
          by (apply match_here_spec; split; [assumption | now exists post']).
        congruence.
      * injection Hs' as _ Hs'. destruct (Hleft pre' g' post' Hs' Hg') as [Hle Heq].
        simpl. split; [lia | intros; apply Heq; lia].
  - intros (pre & post & -> & Hg & Hleft). induction pre as [|c pre IH]; push_app.
    + rewrite re_search_unfold.
      assert (match_here lit group (lit ++ g ++ post) = Some g) as ->
        by (apply match_here_spec; split; [assumption | now exists post]).
      reflexivity.
    + rewrite re_search_unfold.
      destruct (match_here lit group (String c (pre ++ lit ++ g ++ post))) as [g0|] eqn:E.
      * apply match_here_spec in E as [Hg0 (post0 & Hs0)].
        destruct (Hleft "" g0 post0 Hs0 Hg0) as [Hle _]. simpl in Hle. lia.
      * apply IH. intros pre' g' post' Hs' Hg'.
        destruct (Hleft (String c pre') g' post') as [Hle Heq];
          [push_app; now rewrite Hs' | assumption |].
        simpl in Hle, Heq. split; [lia | intros; apply Heq; lia].
Qed.

Lemma re_search_skip_char c0 lit group c r :
  Ascii.eqb c0 c = false ->
  re_search (String c0 lit) group (String c r) = re_search (String c0 lit) group r.
Proof.
  intros H. rewrite re_search_unfold. unfold match_here. simpl. now rewrite H.
Qed.

Lemma re_search_skip_nomatch lit group c r :
  match_here lit group (String c r) = None ->
  re_search lit group (String c r) = re_search lit group r.
Proof. intros H. rewrite re_search_unfold. now rewrite H. Qed.

Lemma pred_differs (p : ascii -> bool) c0 c :
  p c = true -> p c0 = false -> Ascii.eqb c0 c = false.
Proof.
  intros Hc Hc0. destruct (Ascii.eqb_spec c0 c) as [->|]; [congruence | reflexivity].
Qed.

Lemma re_search_occurs lit group s g : re_search lit group s = Some g -> contains lit s = true.
Proof.
  intros H. apply re_search_sound in H as [_ (pre & post & ->)].
  apply contains_spec. now exists pre, (g ++ post).
Qed.

Lemma date_group_spec g :
  group_matches date_group g ->
  exists y1 y2 y3 y4 m1 m2 d1 d2,
    g = String y1 (String y2 (String y3 (String y4 (String "-"
          (String m1 (String m2 (String "-" (String d1 (String d2 ""))))))))) /\
    Forall (fun c => isdecimal c = true) [y1; y2; y3; y4; m1; m2; d1; d2].
Proof.
  unfold group_matches, date_group. intros H.
  destruct g as [|c1 [|c2 [|c3 [|c4 [|c5 [|c6 [|c7 [|c8 [|c9 [|c10 [|c11 g]]]]]]]]]]];
    simpl in H;
    repeat match goal with
           | H : Forall2 _ _ _ |- _ => inversion H; clear H; subst
           end.
  simpl in *.
  repeat match goal with
         | H : Ascii.eqb _ _ = true |- _ => apply Ascii.eqb_eq in H; subst
         end.
  exists c1, c2, c3, c4, c6, c7, c9, c10. split; [reflexivity|].
  repeat constructor; assumption.
Qed.

Ltac skip_unmatched :=
  repeat first
    [ rewrite re_search_skip_char
        by first [ reflexivity
                 | apply (pred_differs isdecimal); [assumption | reflexivity]
                 | apply (pred_differs isupper_AZ); [assumption | reflexivity] ]
    | rewrite re_search_skip_nomatch by reflexivity ].

Lemma search_url_fields origin destination date_str :
  group_matches code_group origin ->
  group_matches code_group destination ->
  group_matches date_group date_str ->
  let url := scrape_united.search_url origin destination date_str in
  re_search "f=" code_group url = Some origin /\
  re_search "t=" code_group url = Some destination /\
  re_search "d=" date_group url = Some date_str.
Proof.
  intros Ho Hd Hds url. subst url.
  apply code_group_spec in Ho as (o1 & o2 & o3 & -> & Ho1 & Ho2 & Ho3).
  apply code_group_spec in Hd as (t1 & t2 & t3 & -> & Ht1 & Ht2 & Ht3).
  apply date_group_spec in Hds as (y1 & y2 & y3 & y4 & m1 & m2 & d1 & d2 & -> & Hdig).
  repeat match goal with
         | H : Forall _ (_ :: _) |- _ => apply Forall_cons_iff in H as [? H]
         end.
  unfold scrape_united.search_url. push_app.
  split; [|split].
  - skip_unmatched. rewrite re_search_unfold. unfold match_here. simpl.
    now rewrite Ho1, Ho2, Ho3.
  - skip_unmatched. rewrite re_search_unfold. unfold match_here. simpl.
    now rewrite Ht1, Ht2, Ht3.
  - skip_unmatched. rewrite re_search_unfold. unfold match_here. simpl.
    repeat match goal with
           | H : isdecimal _ = true |- _ => rewrite H; clear H
           end.
    reflexivity.
Qed.

(** X7: the interactive reader inverts the batch URL builder.  For an origin
    and a destination of three capitals and a date shaped YYYY-MM-DD, the URL
    that scrape_united_awards navigates to is recognised as a results page, and
    the record extract_flight_data builds on that URL carries that origin,
    destination and date. *)
Theorem X7_reader_inverts_search_url :
  forall origin destination date_str,
    group_matches code_group origin ->
    group_matches code_group destination ->
    group_matches date_group date_str ->
    let url := scrape_united.search_url origin destination date_str in
    is_results_url url = true /\
    url_field "f=" code_group url = PStr origin /\
    url_field "t=" code_group url = PStr destination /\
    url_field "d=" date_group url = PStr date_str /\
    (forall driver clock r,
        current_url driver = Ok url ->
        auto_scraper.extract_flight_data driver clock = Ok (Some r) ->
        dict_get "origin" r = Some (PStr origin) /\
        dict_get "destination" r = Some (PStr destination) /\
        dict_get "date" r = Some (PStr date_str)).
Proof.
  intros origin destination date_str Ho Hd Hds url.
  destruct (search_url_fields origin destination date_str Ho Hd Hds) as (Hf & Ht & Hdate).
  fold url in Hf, Ht, Hdate.
  assert (Hfields : url_field "f=" code_group url = PStr origin /\
                    url_field "t=" code_group url = PStr destination /\
                    url_field "d=" date_group url = PStr date_str).
  { unfold url_field.
    rewrite (re_search_occurs _ _ _ _ Hf), (re_search_occurs _ _ _ _ Ht),
      (re_search_occurs _ _ _ _ Hdate), Hf, Ht, Hdate. auto. }
  destruct Hfields as (Hfo & Hfd & Hfdate).
  split.
  { unfold is_results_url.
    assert (contains "choose-flights" url = true) as ->; [|reflexivity].
    apply contains_spec.
    exists "https://www.united.com/en/us/fsr/",
      ("?tt=1&st=bestmatches&d=" ++ date_str ++ "&clm=7&taxng=1&f=" ++ origin
       ++ "&px=1&newHP=True&fareWheel=true&sc=7&at=0&t=" ++ destination).
    reflexivity. }
  split; [exact Hfo|]. split; [exact Hfd|]. split; [exact Hfdate|].
  intros driver clock r Hurl Hr.
  apply extract_flight_data_shape in Hr as (url' & found & miles & Hurl' & -> & _).
  assert (url' = url) as -> by congruence.
  simpl. now rewrite Hfo, Hfd, Hfdate.
Qed.

Lemma X7_reader_inverts_search_url_witness :
  is_results_url (scrape_united.search_url "ATL" "LAX" "2025-01-01") = true /\
  url_field "f=" code_group (scrape_united.search_url "ATL" "LAX" "2025-01-01") = PStr "ATL" /\
  url_field "t=" code_group (scrape_united.search_url "ATL" "LAX" "2025-01-01") = PStr "LAX" /\
  url_field "d=" date_group (scrape_united.search_url "ATL" "LAX" "2025-01-01")
    = PStr "2025-01-01".
Proof.
  assert (Ho : group_matches code_group "ATL") by (repeat constructor).
  assert (Hd : group_matches code_group "LAX") by (repeat constructor).
  assert (Hds : group_matches date_group "2025-01-01") by (repeat constructor).
  destruct (X7_reader_inverts_search_url "ATL" "LAX" "2025-01-01" Ho Hd Hds)
    as (H1 & H2 & H3 & H4 & _).
  repeat split; assumption.
Defined.

(** * Further properties: the records *)

Lemma digit_value_nonneg c : isdecimal c = true -> 0 <= digit_value c.
Proof.
  unfold isdecimal, digit_value. intros H. apply andb_true_iff in H as [H _].
  apply Nat.leb_le in H. lia.
Qed.

Lemma int_acc_nonneg s acc :
  Forall (fun c => isdecimal c = true) (list_ascii_of_string s) ->
  0 <= acc -> 0 <= int_acc acc s.
Proof.
  revert acc. induction s as [|c r IH]; intros acc Hs Hacc; simpl; [exact Hacc|].
  simpl in Hs. apply Forall_cons_iff in Hs as [Hc Hr].
  apply IH; [exact Hr|]. pose proof (digit_value_nonneg c Hc). lia.
Qed.

Lemma add_price_nonneg miles_prices text prices :
  add_price miles_prices text = Ok prices ->
  Forall (fun z => 0 <= z) miles_prices ->
  Forall (fun z => 0 <= z) prices.
Proof.
  unfold add_price. destruct (str_truthy (numbers_of text)); [|now intros [= <-]].
  destruct (int (numbers_of text)) as [n|e] eqn:E; [|discriminate].
  intros [= <-] H. apply int_value in E as [-> Hdec].
  apply Forall_app. split; [exact H|]. constructor; [|constructor].
  apply int_acc_nonneg; [exact Hdec | lia].
Qed.

Lemma collect_prices_nonneg miles_elements miles_prices prices :
  collect_prices miles_elements miles_prices = Ok prices ->
  Forall (fun z => 0 <= z) miles_prices ->
  Forall (fun z => 0 <= z) prices.
Proof.
  revert miles_prices. induction miles_elements as [|elem rest IH];
    intros miles_prices; simpl.
  - now intros [= <-].
  - destruct (text elem) as [t|e]; simpl; [|discriminate].
    destruct (add_price miles_prices t) as [ps|e] eqn:E; simpl; [|discriminate].
    intros H Hacc. apply (IH _ H). now apply (add_price_nonneg _ _ _ E).
Qed.

Lemma py_min_nonneg prices m :
  Forall (fun z => 0 <= z) prices -> py_min prices = Some m -> 0 <= m.
Proof.
  intros Hall Hm. pose proof (py_min_spec prices) as Hspec. rewrite Hm in Hspec.
  destruct Hspec as [Hin _]. rewrite List.Forall_forall in Hall. now apply Hall.
Qed.

Lemma min_miles_field_cases m :
  (forall z, m = Some z -> 0 <= z) ->
  min_miles_field m = PStr "N/A" \/ exists z, min_miles_field m = PInt z /\ 0 < z.
Proof.
  intros Hm. unfold min_miles_field, truthy_opt_int. destruct m as [z|]; [|now left].
  destruct (Z.eqb_spec z 0); simpl; [now left|].
  right. exists z. split; [reflexivity|]. specialize (Hm z eq_refl). lia.
Qed.

Lemma len_nonneg {A : Type} (l : list A) : 0 <= len l.
Proof. unfold len. lia. Qed.

Lemma triple_ret {A : Type} (I : locals -> Prop) (a : A) (Q : A -> Prop) :
  Q a -> body_triple I (body_ret a) Q.
Proof. intros Ha l Hl. split; [exact Hl|]. now intros b [= <-]. Qed.

Lemma triple_call {A : Type} (I : locals -> Prop) (r : result A) :
  body_triple I (call r) (fun a => r = Ok a).
Proof. intros l Hl. split; [exact Hl|]. now intros a. Qed.

Lemma triple_bind {A B : Type} (I : locals -> Prop) (m : Body A) (k : A -> Body B)
    (Q : A -> Prop) (R : B -> Prop) :
  body_triple I m Q ->
  (forall a, Q a -> body_triple I (k a) R) ->
  body_triple I (body_bind m k) R.
Proof.
  intros Hm Hk l Hl. unfold body_bind. destruct (Hm l Hl) as [Hl' Ha].
  destruct (m l) as [l' [a|e]]; simpl in *.
  - exact (Hk a (Ha a eq_refl) l' Hl').
  - split; [exact Hl' | discriminate].
Qed.

Lemma triple_when (I : locals -> Prop) b (m : Body unit) :
  body_triple I m (fun _ => True) -> body_triple I (when b m) (fun _ => True).
Proof. intros Hm. destruct b; [exact Hm | now apply triple_ret]. Qed.

Lemma triple_read_flights_found (I : locals -> Prop) :
  body_triple I read_flights_found (fun _ => True).
Proof. intros l Hl. now split. Qed.

Lemma triple_set_flights_found n :
  0 <= n -> body_triple locals_ok (set_flights_found n) (fun _ => True).
Proof. intros Hn l [_ Hm]. split; [|auto]. split; [exact Hn | exact Hm]. Qed.

Lemma triple_set_min_miles m :
  (forall z, m = Some z -> 0 <= z) ->
  body_triple locals_ok (set_min_miles m) (fun _ => True).
Proof. intros Hm l [Hf _]. split; [|auto]. split; [exact Hf | exact Hm]. Qed.

(** Whatever happens inside the inner block of the batch executor, the
    locals hold a count that is not negative and, if any, a minimum that is
    not negative. *)
Lemma extraction_block_triple driver origin destination date_str debug :
  body_triple locals_ok
    (scrape_united.extraction_block driver origin destination date_str debug)
    (fun _ => True).
Proof.
  unfold scrape_united.extraction_block.
  eapply triple_bind.
  { apply triple_when. eapply triple_bind; [apply triple_call|]. intros b _.
    eapply triple_bind; [apply triple_call|]. intros t _. now apply triple_ret. }
  intros _ _. eapply triple_bind; [apply triple_call|]. intros flight_elements _.
  eapply triple_bind; [apply triple_set_flights_found, len_nonneg|]. intros _ _.
  eapply triple_bind.
  { apply triple_when. destruct flight_elements as [|first rest]; [now apply triple_ret|].
    eapply triple_bind; [apply triple_call|]. intros c _. now apply triple_ret. }
  intros _ _. eapply triple_bind; [apply triple_call|]. intros miles_elements _.
  eapply triple_bind; [apply triple_call|]. intros miles_prices Hprices.
  apply collect_prices_nonneg in Hprices; [|constructor].
  eapply triple_bind.
  { apply triple_when, triple_set_min_miles. intros z. now apply py_min_nonneg. }
  intros _ _. eapply triple_bind; [apply triple_call|]. intros no_flights_indicators _.
  eapply triple_bind; [apply triple_read_flights_found|]. intros found _.
  apply triple_when. eapply triple_bind; [apply triple_set_flights_found; lia|].
  intros _ _. apply triple_set_min_miles. discriminate.
Qed.

Lemma extraction_block_locals driver origin destination date_str debug l r :
  body_except_Exception
    (scrape_united.extraction_block driver origin destination date_str debug)
    {| flights_found := 0; min_miles := None |} = (l, r) ->
  locals_ok l.
Proof.
  intros H.
  destruct (extraction_block_triple driver origin destination date_str debug
              {| flights_found := 0; min_miles := None |}) as [Hl _].
  { split; [simpl; lia | discriminate]. }
  unfold body_except_Exception in H.
  destruct (scrape_united.extraction_block _ _ _ _ _ _) as [l0 [[]|[msg|]]];
    injection H as <- _; exact Hl.
Qed.

(** X8: in every record either extraction function returns, flights_found
    and min_miles are both 'BLOCKED', or both 'ERROR', or a count that is not
    negative beside a price above zero or 'N/A'; sentinels and numbers never
    mix otherwise, and the interactive function never answers 'ERROR'. *)
Theorem X8_result_fields_discipline :
  (forall (datetime : Type) (strftime_ymd : datetime -> string)
          origin destination date driver clock debug r,
      scrape_united.scrape_united_awards strftime_ymd origin destination date
        driver clock debug = Ok r ->
      exists found miles,
        dict_get "flights_found" r = Some found /\
        dict_get "min_miles" r = Some miles /\
        result_fields_ok found miles) /\
  (forall driver clock r,
      auto_scraper.extract_flight_data driver clock = Ok (Some r) ->
      exists found miles,
        dict_get "flights_found" r = Some found /\
        dict_get "min_miles" r = Some miles /\
        result_fields_ok found miles /\
        found <> PStr "ERROR" /\ miles <> PStr "ERROR").
Proof.
  split.
  - intros datetime strftime_ymd origin destination date driver clock debug r.
    unfold scrape_united.scrape_united_awards, except_Exception, result_fields_ok.
    destruct (get driver _) as [[]|[msg|]]; simpl;
      [|intros [= <-]; simpl; eauto 10|discriminate].
    destruct (sleep clock) as [[]|[msg|]]; simpl;
      [|intros [= <-]; simpl; eauto 10|discriminate].
    destruct (find_elements driver XPATH block_xpath) as [[|e es]|[msg|]]; simpl;
      [|intros [= <-]; simpl; eauto 10|intros [= <-]; simpl; eauto 10|discriminate].
    destruct (body_except_Exception _ _) as [l r0] eqn:Hblock.
    apply extraction_block_locals in Hblock as [Hfound Hmiles].
    destruct r0 as [[]|[msg|]]; simpl; [|intros [= <-]; simpl; eauto 10|discriminate].
    intros [= <-]. simpl. do 2 eexists. split; [reflexivity|]. split; [reflexivity|].
    right; right. exists (flights_found l). split; [reflexivity|]. split; [exact Hfound|].
    destruct (min_miles_field_cases (min_miles l) Hmiles) as [->|(z & -> & Hz)]; eauto.
  - intros driver clock r.
    unfold auto_scraper.extract_flight_data, except_Exception, result_fields_ok.
    destruct (current_url driver) as [url|[msg|]]; simpl; [|discriminate..].
    destruct (sleep clock) as [[]|[msg|]]; simpl; [|discriminate..].
    destruct (find_elements driver XPATH block_xpath) as [[|e es]|[msg|]]; simpl;
      [|intros [= <-]; simpl; do 2 eexists; repeat split; eauto; discriminate
       |discriminate..].
    destruct (find_flight_elements driver) as [cards|[msg|]]; simpl; [|discriminate..].
    destruct (find_elements driver CSS_SELECTOR miles_selector) as [ms|[msg|]]; simpl;
      [|discriminate..].
    destruct (collect_prices ms []) as [prices|[msg|]] eqn:Hprices; simpl;
      [|discriminate..].
    apply collect_prices_nonneg in Hprices; [|constructor].
    destruct (find_elements driver XPATH no_flights_xpath) as [nf|[msg|]]; simpl;
      [|discriminate..].
    intros [= <-]. simpl. do 2 eexists. split; [reflexivity|]. split; [reflexivity|].
    set (no_flights := (negb (is_empty nf) && Z.eqb (len cards) 0)%bool).
    set (m := if no_flights then None
              else if negb (is_empty prices) then py_min prices else None).
    assert (Hm : forall z, m = Some z -> 0 <= z).
    { subst m. destruct no_flights; [discriminate|].
      destruct (negb (is_empty prices)); [|discriminate].
      intros z. now apply py_min_nonneg. }
    split; [|split; [discriminate|]].
    + right; right. eexists. split; [reflexivity|]. split.
      * destruct no_flights; [lia | apply len_nonneg].
      * destruct (min_miles_field_cases m Hm) as [->|(z & -> & Hz)]; eauto.
    + destruct (min_miles_field_cases m Hm) as [->|(z & -> & Hz)]; discriminate.
Qed.

Lemma X8_result_fields_discipline_witness :
  exists found miles,
    dict_get "flights_found" (sample_row "ATL" "LAX" 2 (PInt 8000)) = Some found /\
    dict_get "min_miles" (sample_row "ATL" "LAX" 2 (PInt 8000)) = Some miles /\
    result_fields_ok found miles.
Proof.
  apply (proj1 X8_result_fields_discipline nat january "ATL" "LAX" 0%nat
           results_page noon false).
  reflexivity.
Defined.

(** The two extraction functions on the same page: when the interactive one
    answers a record, the batch one (without debug) answers the same result
    fields. *)
Lemma batch_agrees_with_interactive {datetime : Type} (strftime_ymd : datetime -> string)
    origin destination date driver clock r :
  get driver (scrape_united.search_url origin destination (strftime_ymd date)) = Ok tt ->
  auto_scraper.extract_flight_data driver clock = Ok (Some r) ->
  exists r',
    scrape_united.scrape_united_awards strftime_ymd origin destination date
      driver clock false = Ok r' /\
    dict_get "flights_found" r' = dict_get "flights_found" r /\
    dict_get "min_miles" r' = dict_get "min_miles" r /\
    dict_get "scraped_at" r' = dict_get "scraped_at" r.
Proof.
  intros Hget. unfold auto_scraper.extract_flight_data, scrape_united.scrape_united_awards,
    except_Exception. rewrite Hget.
  destruct (current_url driver) as [url|[msg|]]; simpl; [|discriminate..].
  destruct (sleep clock) as [[]|[msg|]]; simpl; [|discriminate..].
  destruct (find_elements driver XPATH block_xpath) as [[|e es]|[msg|]]; simpl;
    [|intros [= <-]; eexists; split; [reflexivity|]; repeat split|discriminate..].
  unfold body_except_Exception, scrape_united.extraction_block, body_bind, call, when,
    body_ret, set_flights_found, set_min_miles, read_flights_found. simpl.
  destruct (find_flight_elements driver) as [cards|[msg|]]; simpl; [|discriminate..].
  destruct (find_elements driver CSS_SELECTOR miles_selector) as [ms|[msg|]]; simpl;
    [|discriminate..].
  destruct (collect_prices ms []) as [prices|[msg|]]; simpl; [|discriminate..].
  destruct (find_elements driver XPATH no_flights_xpath) as [nf|[msg|]]; simpl;
    [|discriminate..].
  intros [= <-].
  destruct prices as [|p ps]; simpl;
    destruct (negb (is_empty nf) && (len cards =? 0)%Z)%bool eqn:E; simpl;
    eexists; (split; [reflexivity|]); simpl; repeat split; try reflexivity;
    apply andb_true_iff in E as [_ E]; apply Z.eqb_eq in E; now rewrite E.
Qed.

(** X9: the two extraction functions agree.  Whenever extract_flight_data
    answers a record on a page, scrape_united_awards (without debug) on the
    same page and clock, once its navigation has succeeded, answers a record
    with the same flights_found, min_miles and scraped_at. *)
Theorem X9_batch_agrees_with_interactive :
  forall (datetime : Type) (strftime_ymd : datetime -> string)
         origin destination date driver clock r,
    get driver (scrape_united.search_url origin destination (strftime_ymd date)) = Ok tt ->
    auto_scraper.extract_flight_data driver clock = Ok (Some r) ->
    exists r',
      scrape_united.scrape_united_awards strftime_ymd origin destination date
        driver clock false = Ok r' /\
      dict_get "flights_found" r' = dict_get "flights_found" r /\
      dict_get "min_miles" r' = dict_get "min_miles" r /\
      dict_get "scraped_at" r' = dict_get "scraped_at" r.
Proof. intros. now apply batch_agrees_with_interactive. Qed.

Lemma X9_batch_agrees_with_interactive_witness :
  exists r',
    scrape_united.scrape_united_awards january "ATL" "LAX" 0%nat results_page noon false
      = Ok r' /\
    dict_get "flights_found" r'
      = dict_get "flights_found" (sample_row "ATL" "LAX" 2 (PInt 8000)) /\
    dict_get "min_miles" r'
      = dict_get "min_miles" (sample_row "ATL" "LAX" 2 (PInt 8000)) /\
    dict_get "scraped_at" r'
      = dict_get "scraped_at" (sample_row "ATL" "LAX" 2 (PInt 8000)).
Proof.
  apply (X9_batch_agrees_with_interactive nat january "ATL" "LAX" 0%nat
           results_page noon); reflexivity.
Defined.




(** * Further properties: the stores over a whole run *)

(** A loop whose every turn appends rows for a prefix of its keys, and for
    all of them when it ends normally, appends rows for a prefix of all the
    keys, and for all of them when it ends normally. *)
Lemma for_each_logs {A S : Type} (f : string) (good : csv_row -> Prop)
    (keys : A -> list (list pyval)) (body : A -> S -> IO S) xs :
  (forall x s w, exists rows rest,
      file_rows f (snd (body x s w)) = (file_rows f w ++ rows)%list /\
      Forall good rows /\
      keys x = (map row_query rows ++ rest)%list /\
      (forall s', fst (body x s w) = Ok s' -> rest = [])) ->
  forall s w, exists rows rest,
      file_rows f (snd (for_each xs body s w)) = (file_rows f w ++ rows)%list /\
      Forall good rows /\
      flat_map keys xs = (map row_query rows ++ rest)%list /\
      (forall s', fst (for_each xs body s w) = Ok s' -> rest = []).
Proof.
  intros Hbody. induction xs as [|x xs' IH]; intros s w.
  - exists [], []. simpl. rewrite app_nil_r. repeat split; auto.
  - destruct (Hbody x s w) as (rows1 & rest1 & Hfile1 & Hgood1 & Hkeys1 & Hok1).
    simpl. unfold io_bind. destruct (body x s w) as [[s1|e] w1]; simpl in *.
    + rewrite (Hok1 s1 eq_refl), app_nil_r in Hkeys1.
      destruct (IH s1 w1) as (rows2 & rest2 & Hfile2 & Hgood2 & Hkeys2 & Hok2).
      exists (rows1 ++ rows2)%list, rest2.
      rewrite Hfile2, Hfile1, Hkeys1, Hkeys2, map_app, !app_assoc.
      repeat split; auto. now apply Forall_app.
    + exists rows1, (rest1 ++ flat_map keys xs')%list.
      rewrite Hkeys1, app_assoc. repeat split; auto. discriminate.
Qed.

Lemma search_step_logs {datetime : Type} (strftime_ymd : datetime -> string)
    env debug origin destination date current_search w :
  exists rows rest,
    file_rows scrape_united.output_file
      (snd (scrape_united.search_step strftime_ymd env debug origin destination date
              current_search w))
    = (file_rows scrape_united.output_file w ++ rows)%list /\
    Forall data_row rows /\
    [query_cells origin destination (strftime_ymd date)]
    = (map row_query rows ++ rest)%list /\
    (forall s',
       fst (scrape_united.search_step strftime_ymd env debug origin destination date
              current_search w) = Ok s' -> rest = []).
Proof.
  destruct (scrape_united.scrape_united_awards strftime_ymd origin destination date
              (scrape_united.search_driver env (S current_search))
              (scrape_united.search_clock env (S current_search)) debug) as [r|e] eqn:Hr.
  - destruct (search_step_appends strftime_ymd env debug origin destination date
                current_search w r Hr) as (row & Hrow & Hsnd & _).
    apply scrape_united_awards_shape in Hr as (found & miles & -> & Hcases).
    rewrite dict_to_row_six in Hrow. injection Hrow as <-.
    assert (Hdata : data_row
      [PStr origin; PStr destination; PStr (strftime_ymd date); found; miles;
       PStr (now_isoformat (scrape_united.search_clock env (S current_search)))]).
    { split; [reflexivity|]. unfold header_row. simpl.
      destruct Hcases as [[-> _] | [[-> _] | (l & -> & _)]]; discriminate. }
    exists [[PStr origin; PStr destination; PStr (strftime_ymd date); found; miles;
             PStr (now_isoformat (scrape_united.search_clock env (S current_search)))]], [].
    rewrite Hsnd, file_rows_set_file. repeat split; auto.
  - exists [], [query_cells origin destination (strftime_ymd date)].
    unfold scrape_united.search_step, io_bind, io_call. rewrite Hr. simpl.
    rewrite app_nil_r. repeat split; auto. discriminate.
Qed.

(** X11: the file a batch run leaves is the header followed by the rows of
    the first searches, in the order of the nested loops (routes in list order,
    for each route the dates in order), each a data row of six cells; whatever cuts
    the run short, the log is such a prefix, and when main returns normally
    the log holds every search. *)
Theorem X11_batch_log_is_an_ordered_prefix :
  forall (datetime : Type) (strftime_ymd : datetime -> string)
         (add_days : datetime -> nat -> datetime)
         (test_mode debug manual_login : bool) (env : scrape_united.Env datetime) w,
    scrape_united.setup_driver env = Ok tt ->
    (manual_login = true ->
     scrape_united.login_get env = Ok tt /\ scrape_united.login_sleep env = Ok tt /\
     exists s, scrape_united.login_input env = Ok s) ->
    let routes := if test_mode then firstn 1 scrape_united.generate_routes
                  else scrape_united.generate_routes in
    let dates := map (add_days (scrape_united.start_date env))
                   (seq 0 (if test_mode then 2 else 365)) in
    let run := scrape_united.main strftime_ymd add_days test_mode debug manual_login env w in
    exists rows rest,
      file_rows scrape_united.output_file (snd run) = header_row :: rows /\
      Forall data_row rows /\
      flat_map (fun route =>
        flat_map (fun date => [query_cells (fst route) (snd route) (strftime_ymd date)])
          dates) routes
      = (map row_query rows ++ rest)%list /\
      (fst run = Ok tt -> rest = []).
Proof.
  intros datetime strftime_ymd add_days test_mode debug manual_login env w
    Hsetup Hlogin routes dates run.
  assert (Hrun : run =
    try_finally
      (io_bind (fun w0 => (Ok tt, set_file scrape_united.output_file [header_row] w0))
         (fun _ =>
            io_bind
              (for_each routes (fun route current_search =>
                 for_each dates (fun date current_search0 =>
                   scrape_united.search_step strftime_ymd env debug (fst route) (snd route)
                     date current_search0) current_search) 0%nat)
              (fun _ => io_ret tt)))
      (driver_quit (scrape_united.quit_outcome env)) w).
  { subst run routes dates. unfold scrape_united.main, io_bind at 1 2, io_call.
    rewrite Hsetup.
    assert (Hpre :
      (if manual_login
       then io_bind (fun w0 => (scrape_united.login_get env, w0)) (fun _ =>
            io_bind (fun w0 => (scrape_united.login_sleep env, w0)) (fun _ =>
            io_bind (fun w0 => (scrape_united.login_input env, w0)) (fun _ => io_ret tt)))
       else io_ret tt) w = (Ok tt, w)).
    { destruct manual_login; [|reflexivity].
      destruct (Hlogin eq_refl) as (Hg & Hs & s & Hi).
      unfold io_bind, io_ret. now rewrite Hg, Hs, Hi. }
    now rewrite Hpre. }
  clearbody run. subst run.
  destruct (for_each_logs scrape_united.output_file data_row
    (fun route =>
       flat_map (fun date => [query_cells (fst route) (snd route) (strftime_ymd date)]) dates)
    (fun route current_search =>
       for_each dates (fun date current_search0 =>
         scrape_united.search_step strftime_ymd env debug (fst route) (snd route) date
           current_search0) current_search) routes
    (fun route s v =>
       for_each_logs scrape_united.output_file data_row
         (fun date => [query_cells (fst route) (snd route) (strftime_ymd date)])
         (fun date current_search0 =>
            scrape_united.search_step strftime_ymd env debug (fst route) (snd route) date
              current_search0) dates
         (fun date s0 v0 =>
            search_step_logs strftime_ymd env debug (fst route) (snd route) date s0 v0)
         s v)
    0%nat (set_file scrape_united.output_file [header_row] w))
    as (rows & rest & Hfile & Hgood & Hkeys & Hok).
  rewrite file_rows_set_file in Hfile.
  exists rows, rest.
  unfold try_finally, io_bind, io_ret, driver_quit.
  destruct (for_each routes _ 0%nat _) as [[s'|e] w1]; cbn [fst snd] in *;
    destruct (scrape_united.quit_outcome env); cbn [fst snd];
    (split; [exact Hfile|]); (split; [exact Hgood|]); (split; [exact Hkeys|]);
    intros H; first [discriminate H | eapply Hok; reflexivity].
Qed.

Lemma X11_batch_log_is_an_ordered_prefix_witness :
  exists rows rest,
    file_rows scrape_united.output_file
      (snd (scrape_united.main january Nat.add true false true calm_run fresh_world))
    = header_row :: rows /\
    Forall data_row rows /\
    flat_map (fun route =>
      flat_map (fun date => [query_cells (fst route) (snd route) (january date)])
        (map (Nat.add (scrape_united.start_date calm_run)) (seq 0 2)))
      (firstn 1 scrape_united.generate_routes)
    = (map row_query rows ++ rest)%list /\
    (fst (scrape_united.main january Nat.add true false true calm_run fresh_world) = Ok tt ->
     rest = []).
Proof.
  apply (X11_batch_log_is_an_ordered_prefix nat january Nat.add true false true
           calm_run fresh_world).
  - reflexivity.
  - intros _. split; [reflexivity|]. split; [reflexivity|]. now exists "".
Defined.

Lemma search_step_other_files {datetime : Type} (strftime_ymd : datetime -> string)
    env debug origin destination date current_search w other :
  scrape_united.output_file <> other ->
  files (snd (scrape_united.search_step strftime_ymd env debug origin destination
                date current_search w)) !! other = files w !! other.
Proof.
  intros Hne. unfold scrape_united.search_step, io_bind, io_call, io_ret.
  destruct (scrape_united.scrape_united_awards _ _ _ _ _ _ _) as [r|e]; [|reflexivity].
  destruct (dict_truthy r); [destruct (dict_to_row r) as [row|e]|]; cbn [snd fst];
    try reflexivity;
    destruct (scrape_united.pacing_sleep env (S current_search)); cbn [snd];
    try reflexivity; now apply files_set_file_other.
Qed.

Lemma main_turn_store t w r w' :
  auto_scraper.main_turn t w = Some (r, w') ->
  (forall other, auto_scraper.default_filename <> other ->
                 files w' !! other = files w !! other) /\
  (forall rows, files w !! auto_scraper.default_filename = Some rows ->
                exists suffix,
                  files w' !! auto_scraper.default_filename = Some (rows ++ suffix)%list).
Proof.
  assert (Hsame : forall v : World,
    (forall other, auto_scraper.default_filename <> other ->
                   files v !! other = files v !! other) /\
    (forall rows, files v !! auto_scraper.default_filename = Some rows ->
                  exists suffix,
                    files v !! auto_scraper.default_filename = Some (rows ++ suffix)%list)).
  { intros v. split; [reflexivity|]. intros rows H. exists []. now rewrite app_nil_r. }
  unfold auto_scraper.main_turn.
  destruct (auto_scraper.wait_for_search_results _ _) as [[[|]|e]|]; try discriminate;
    try (intros [= _ <-]; apply Hsame).
  destruct (auto_scraper.extract_flight_data _ _) as [[d|]|e];
    try (intros [= _ <-]; apply Hsame).
  destruct (dict_truthy d); intros [= _ <-]; [|apply Hsame].
  split.
  - intros other Hne. now apply save_to_csv_other_files.
  - intros rows Hrows. now apply save_to_csv_keeps_rows.
Qed.

Lemma main_loop_store ts w e w' :
  auto_scraper.main_loop ts w = Some (e, w') ->
  (forall other, auto_scraper.default_filename <> other ->
                 files w' !! other = files w !! other) /\
  (forall rows, files w !! auto_scraper.default_filename = Some rows ->
                exists suffix,
                  files w' !! auto_scraper.default_filename = Some (rows ++ suffix)%list).
Proof.
  revert w. induction ts as [|t rest IH]; intros w; simpl; [discriminate|].
  destruct (auto_scraper.main_turn t w) as [[[[]|x] w1]|] eqn:E; try discriminate.
  - intros H. destruct (main_turn_store _ _ _ _ E) as [Ho1 Hr1].
    destruct (IH _ H) as [Ho2 Hr2]. split.
    + intros other Hne. now rewrite Ho2, Ho1.
    + intros rows Hrows. destruct (Hr1 rows Hrows) as (s1 & H1).
      destruct (Hr2 _ H1) as (s2 & H2). exists (s1 ++ s2)%list.
      now rewrite H2, app_assoc.
  - intros [= <- <-]. eapply main_turn_store; eauto.
Qed.

(** X12: without debug the batch main touches no file other than
    united_awards.csv (with debug the browser also writes the screenshots,
    which are not part of the stores modelled here); the interactive main
    touches no other file either, and a session, however long and however it
    ends, only appends to united_awards.csv: the rows it held before stay, in
    place, at the head of the file. *)
Theorem X12_stores_touched :
  (forall (datetime : Type) (strftime_ymd : datetime -> string)
          (add_days : datetime -> nat -> datetime)
          (test_mode manual_login : bool) (env : scrape_united.Env datetime) w other,
      scrape_united.output_file <> other ->
      files (snd (scrape_united.main strftime_ymd add_days test_mode false manual_login
                    env w)) !! other = files w !! other) /\
  (forall env w r w',
      auto_scraper.main env w = Some (r, w') ->
      (forall other, auto_scraper.default_filename <> other ->
                     files w' !! other = files w !! other) /\
      (forall rows, files w !! auto_scraper.default_filename = Some rows ->
                    exists suffix,
                      files w' !! auto_scraper.default_filename
                      = Some (rows ++ suffix)%list)).
Proof.
  split.
  - intros datetime strftime_ymd add_days test_mode manual_login env w other Hne.
    unfold scrape_united.main, io_bind at 1 2, io_call.
    destruct (scrape_united.setup_driver env) as [[]|e]; [|reflexivity].
    match goal with |- context [(if manual_login then ?a else ?b) w] =>
      set (pre := (if manual_login then a else b) w) end.
    assert (Hpre : snd pre = w).
    { subst pre. destruct manual_login; [|reflexivity]. unfold io_bind, io_ret.
      destruct (scrape_united.login_get env); [|reflexivity].
      destruct (scrape_united.login_sleep env); [|reflexivity].
      now destruct (scrape_united.login_input env). }
    destruct pre as [[[]|e] w0]; simpl in Hpre; subst w0; [|reflexivity].
    unfold try_finally, driver_quit.
    match goal with |- context [io_bind ?m ?k w] => set (body := io_bind m k) end.
    assert (Hbody : files (snd (body w)) !! other = files w !! other).
    { subst body. unfold io_bind at 1.
      match goal with |- context [io_bind (for_each ?xs ?b ?s) ?k] =>
        pose proof (for_each_preserves
          (fun v => files v !! other = files w !! other) b xs) as Hloop;
        set (loop := for_each xs b s) in * end.
      unfold io_bind, io_ret.
      assert (Hq : files (snd (loop (set_file scrape_united.output_file [header_row] w)))
                     !! other = files w !! other).
      { subst loop. apply Hloop; [|now apply files_set_file_other].
        intros route s v Hv.
        apply (for_each_preserves (fun v => files v !! other = files w !! other));
          [|exact Hv].
        intros date s' v' Hv'. now rewrite search_step_other_files. }
      destruct (loop _) as [[s|e] v]; exact Hq. }
    destruct (body w) as [r w1]. simpl in Hbody.
    destruct (scrape_united.quit_outcome env); simpl; exact Hbody.
  - intros env w r w'. unfold auto_scraper.main.
    assert (Hsame :
      (forall other, auto_scraper.default_filename <> other ->
                     files w !! other = files w !! other) /\
      (forall rows, files w !! auto_scraper.default_filename = Some rows ->
                    exists suffix,
                      files w !! auto_scraper.default_filename = Some (rows ++ suffix)%list)).
    { split; [reflexivity|]. intros rows H. exists []. now rewrite app_nil_r. }
    destruct (auto_scraper.start_input env); [|intros [= _ <-]; exact Hsame].
    destruct (auto_scraper.setup_driver env); [|intros [= _ <-]; exact Hsame].
    unfold bind, driver_quit.
    destruct (auto_scraper.home_get env) as [[]|e1]; [|intros [= _ <-]; exact Hsame].
    destruct (auto_scraper.login_input env) as [s1|e2]; [|intros [= _ <-]; exact Hsame].
    destruct (auto_scraper.main_loop _ w) as [[e3 w1]|] eqn:E; [|discriminate].
    intros [= _ <-]. simpl. eapply main_loop_store; eauto.
Qed.

Lemma X12_stores_touched_witness :
  files (snd (scrape_united.main january Nat.add true false true calm_run fresh_world))
    !! "notes.txt" = files fresh_world !! "notes.txt".
Proof.
  apply (proj1 X12_stores_touched nat january Nat.add true true calm_run fresh_world
           "notes.txt").
  discriminate.
Defined.

Lemma main_loop_raises ts w e w' :
  auto_scraper.main_loop ts w = Some (e, w') ->
  exists before t after w0,
    ts = (before ++ t :: after)%list /\
    auto_scraper.main_turn t w0 = Some (Raise e, w').
Proof.
  revert w. induction ts as [|t rest IH]; intros w; simpl; [discriminate|].
  destruct (auto_scraper.main_turn t w) as [[[[]|x] w1]|] eqn:E; try discriminate.
  - intros H. destruct (IH _ H) as (before & t' & after & w0 & -> & Ht').
    now exists (t :: before), t', after, w0.
  - intros [= <- <-]. now exists [], t, rest, w.
Qed.

(** X13: the interactive main never passes an exception of the session on.
    Once Chrome is open, whenever main returns, an exception had ended the
    session (in the first navigation, at the login prompt, or in some turn of
    the loop, which has no other exit), both except clauses swallowed it, and
    what main hands back is the outcome of driver.quit() alone. *)
Theorem X13_interactive_main_swallows :
  forall env w r w',
    (exists s, auto_scraper.start_input env = Ok s) ->
    auto_scraper.setup_driver env = Ok tt ->
    auto_scraper.main env w = Some (r, w') ->
    r = auto_scraper.quit_outcome env /\
    exists e,
      auto_scraper.home_get env = Raise e \/
      auto_scraper.login_input env = Raise e \/
      exists before t after w0 w1,
        auto_scraper.turns env = (before ++ t :: after)%list /\
        auto_scraper.main_turn t w0 = Some (Raise e, w1).
Proof.
  intros env w r w' [s Hstart] Hsetup. unfold auto_scraper.main.
  rewrite Hstart, Hsetup. unfold bind, driver_quit.
  destruct (auto_scraper.home_get env) as [[]|e1].
  - destruct (auto_scraper.login_input env) as [s1|e2].
    + destruct (auto_scraper.main_loop _ w) as [[e3 w1]|] eqn:E; [|discriminate].
      intros [= <- <-]. split; [reflexivity|]. exists e3. right; right.
      destruct (main_loop_raises _ _ _ _ E) as (before & t & after & w0 & Hts & Ht).
      now exists before, t, after, w0, w1.
    + intros [= <- <-]. split; [reflexivity|]. exists e2. auto.
  - intros [= <- <-]. split; [reflexivity|]. exists e1. auto.
Qed.

Lemma X13_interactive_main_swallows_witness :
  Ok tt = auto_scraper.quit_outcome
            (interactive_run [idle_turn; search_turn results_page; ctrl_c_turn]) /\
  exists e,
    auto_scraper.home_get (interactive_run [idle_turn; search_turn results_page; ctrl_c_turn])
      = Raise e \/
    auto_scraper.login_input
      (interactive_run [idle_turn; search_turn results_page; ctrl_c_turn]) = Raise e \/
    exists before t after w0 w1,
      auto_scraper.turns (interactive_run [idle_turn; search_turn results_page; ctrl_c_turn])
        = (before ++ t :: after)%list /\
      auto_scraper.main_turn t w0 = Some (Raise e, w1).
Proof.
  apply (X13_interactive_main_swallows
           (interactive_run [idle_turn; search_turn results_page; ctrl_c_turn])
           fresh_world (Ok tt)
           (snd (driver_quit (Ok tt)
                   (snd (auto_scraper.save_to_csv (sample_row "ATL" "LAX" 2 (PInt 8000))
                           auto_scraper.default_filename fresh_world))))).
  - now exists "".
  - reflexivity.
  - vm_compute. reflexivity.
Defined.

(** X14: every record either extraction function returns has exactly the
    six keys of the schema, in the order of the columns; a batch record
    repeats the query it was asked (origin, destination, formatted date) and
    the clock; so writerow never raises on such a record, and save_to_csv
    answers True on it and adds exactly its row (after the header when the
    file is new). *)
Theorem X14_records_fit_the_schema :
  (forall (datetime : Type) (strftime_ymd : datetime -> string)
          origin destination date driver clock debug r,
      scrape_united.scrape_united_awards strftime_ymd origin destination date
        driver clock debug = Ok r ->
      map fst r = fieldnames /\
      dict_get "origin" r = Some (PStr origin) /\
      dict_get "destination" r = Some (PStr destination) /\
      dict_get "date" r = Some (PStr (strftime_ymd date)) /\
      dict_get "scraped_at" r = Some (PStr (now_isoformat clock)) /\
      dict_to_row r = Ok (map snd r)) /\
  (forall driver clock r,
      auto_scraper.extract_flight_data driver clock = Ok (Some r) ->
      map fst r = fieldnames /\
      dict_to_row r = Ok (map snd r) /\
      forall filename w,
        auto_scraper.save_to_csv r filename w
        = (true,
           set_file filename
             (match files w !! filename with
              | Some rows => rows ++ [map snd r]
              | None => [header_row; map snd r]
              end) w)).
Proof.
  split.
  - intros datetime strftime_ymd origin destination date driver clock debug r Hr.
    apply scrape_united_awards_shape in Hr as (found & miles & -> & _).
    repeat split; reflexivity.
  - intros driver clock r Hr.
    apply extract_flight_data_shape in Hr as (url & found & miles & _ & -> & _).
    split; [reflexivity|]. split; [reflexivity|].
    intros filename w. destruct (files w !! filename) as [rows|] eqn:E.
    + now apply save_to_csv_existing.
    + now apply save_to_csv_new.
Qed.

Lemma X14_records_fit_the_schema_witness :
  map fst (sample_row "ATL" "LAX" 2 (PInt 8000)) = fieldnames /\
  dict_to_row (sample_row "ATL" "LAX" 2 (PInt 8000))
    = Ok (map snd (sample_row "ATL" "LAX" 2 (PInt 8000))) /\
  forall filename w,
    auto_scraper.save_to_csv (sample_row "ATL" "LAX" 2 (PInt 8000)) filename w
    = (true,
       set_file filename
         (match files w !! filename with
          | Some rows => rows ++ [map snd (sample_row "ATL" "LAX" 2 (PInt 8000))]
          | None => [header_row; map snd (sample_row "ATL" "LAX" 2 (PInt 8000))]
          end) w).
Proof.
  apply (proj2 X14_records_fit_the_schema results_page noon
           (sample_row "ATL" "LAX" 2 (PInt 8000))).
  reflexivity.
Defined.

Lemma dict_to_row_foreign flight_data key value :
  In (key, value) flight_data -> ~ In key fieldnames ->
  exists e, dict_to_row flight_data = Raise e.
Proof.
  intros Hin Hnot. unfold dict_to_row.
  destruct (forallb _ flight_data) eqn:E; [|eauto].
  rewrite forallb_forall in E. specialize (E _ Hin). cbn [fst] in E.
  apply existsb_exists in E as (k & Hk & Heq). apply String.eqb_eq in Heq. now subst.
Qed.

Lemma dict_to_row_column flight_data row i key :
  dict_to_row flight_data = Ok row ->
  nth_error fieldnames i = Some key ->
  nth_error row i = Some (default (PStr "") (dict_get key flight_data)).
Proof.
  unfold dict_to_row. destruct (forallb _ flight_data); [|discriminate].
  intros Hrow Hkey.
  assert (Hr : row = map (fun k => default (PStr "") (dict_get k flight_data)) fieldnames)
    by congruence.
  rewrite Hr, nth_error_map, Hkey. reflexivity.
Qed.

(** X15: the edges of save_to_csv.  On a record with a key outside the six
    columns it answers False and writes no data row, but a file that did not
    exist is left holding the header alone.  In a row it writes, each column
    holds the value the record has under that column's key, and the empty
    string when the record lacks the key.  A file that exists is never given
    a header, not even when it is empty. *)
Theorem X15_save_to_csv_edges :
  (forall flight_data filename w key value,
      In (key, value) flight_data -> ~ In key fieldnames ->
      fst (auto_scraper.save_to_csv flight_data filename w) = false /\
      files (snd (auto_scraper.save_to_csv flight_data filename w)) !! filename
      = Some (match files w !! filename with
              | Some rows => rows
              | None => [header_row]
              end)) /\
  (forall flight_data row i key,
      dict_to_row flight_data = Ok row ->
      nth_error fieldnames i = Some key ->
      length row = 6%nat /\
      nth_error row i = Some (default (PStr "") (dict_get key flight_data)) /\
      (dict_get key flight_data = None -> nth_error row i = Some (PStr ""))) /\
  (forall flight_data row filename w,
      files w !! filename = Some [] ->
      dict_to_row flight_data = Ok row ->
      files (snd (auto_scraper.save_to_csv flight_data filename w)) !! filename
      = Some [row]).
Proof.
  split.
  { intros flight_data filename w key value Hin Hnot.
    destruct (dict_to_row_foreign flight_data key value Hin Hnot) as [e He].
    unfold auto_scraper.save_to_csv, file_rows. rewrite He. cbn [fst snd].
    split; [reflexivity|]. rewrite files_set_file. now destruct (files w !! filename). }
  split.
  { intros flight_data row i key Hrow Hkey.
    pose proof (dict_to_row_column flight_data row i key Hrow Hkey) as Hcol.
    split; [|split; [exact Hcol | intros Hnone; now rewrite Hcol, Hnone]].
    revert Hrow. unfold dict_to_row. destruct (forallb _ flight_data); [|discriminate].
    now intros [= <-]. }
  intros flight_data row filename w Hempty Hrow.
  rewrite (save_to_csv_existing flight_data row [] filename w Hempty Hrow).
  cbn [snd]. apply files_set_file.
Qed.

Lemma X15_save_to_csv_edges_witness :
  (fst (auto_scraper.save_to_csv [("origin", PStr "ATL"); ("cabin", PStr "economy")]
          "united_awards.csv" fresh_world) = false /\
   files (snd (auto_scraper.save_to_csv [("origin", PStr "ATL"); ("cabin", PStr "economy")]
                 "united_awards.csv" fresh_world)) !! "united_awards.csv"
     = Some [header_row]) /\
  (length [PStr "ATL"; PStr ""; PStr ""; PStr ""; PStr ""; PStr ""] = 6%nat /\
   nth_error [PStr "ATL"; PStr ""; PStr ""; PStr ""; PStr ""; PStr ""] 1
     = Some (default (PStr "") (dict_get "destination" [("origin", PStr "ATL")])) /\
   (dict_get "destination" [("origin", PStr "ATL")] = None ->
    nth_error [PStr "ATL"; PStr ""; PStr ""; PStr ""; PStr ""; PStr ""] 1
      = Some (PStr ""))).
Proof.
  split.
  - apply (proj1 X15_save_to_csv_edges
             [("origin", PStr "ATL"); ("cabin", PStr "economy")]
             "united_awards.csv" fresh_world "cabin" (PStr "economy")).
    + simpl. auto.
    + simpl. intuition discriminate.
  - apply (proj1 (proj2 X15_save_to_csv_edges) [("origin", PStr "ATL")]
             [PStr "ATL"; PStr ""; PStr ""; PStr ""; PStr ""; PStr ""] 1%nat "destination");
      reflexivity.
Defined.

(** * Further properties: a price element that cannot be read *)

Lemma collect_prices_unreadable before elem after miles_prices msg :
  Forall (fun el => exists t, text el = Ok t) before ->
  text elem = Raise (Exception msg) ->
  exists msg',
    collect_prices (before ++ elem :: after) miles_prices = Raise (Exception msg').
Proof.
  intros Hbefore Helem. revert miles_prices.
  induction Hbefore as [|b before (t & Hb) _ IH]; intros miles_prices; simpl.
  - rewrite Helem. now exists msg.
  - rewrite Hb. simpl. destruct (add_price miles_prices t) as [ps|e] eqn:E; simpl.
    + apply IH.
    + apply add_price_raises in E as ->. now exists "ValueError".
Qed.

(** X16: when the text of one price element cannot be read, the prices parsed
    from the elements before it are dropped: the batch executor records the
    count of candidates beside 'N/A', and the interactive extraction answers
    no record at all. *)
Theorem X16_unreadable_price_drops_all :
  forall (datetime : Type) (strftime_ymd : datetime -> string)
         origin destination date driver clock cards before elem after msg,
    get driver (scrape_united.search_url origin destination (strftime_ymd date)) = Ok tt ->
    (exists url, current_url driver = Ok url) ->
    sleep clock = Ok tt ->
    find_elements driver XPATH block_xpath = Ok [] ->
    find_flight_elements driver = Ok cards ->
    find_elements driver CSS_SELECTOR miles_selector = Ok (before ++ elem :: after)%list ->
    Forall (fun el => exists t, text el = Ok t) before ->
    text elem = Raise (Exception msg) ->
    scrape_united.scrape_united_awards strftime_ymd origin destination date
      driver clock false
    = Ok [("origin", PStr origin); ("destination", PStr destination);
          ("date", PStr (strftime_ymd date));
          ("flights_found", PInt (len cards)); ("min_miles", PStr "N/A");
          ("scraped_at", PStr (now_isoformat clock))] /\
    auto_scraper.extract_flight_data driver clock = Ok None.
Proof.
  intros datetime strftime_ymd origin destination date driver clock cards before elem after
    msg Hget [url Hurl] Hsleep Hblock Hcards Hms Hbefore Helem.
  destruct (collect_prices_unreadable before elem after [] msg Hbefore Helem)
    as [msg' Hraise].
  split.
  - unfold scrape_united.scrape_united_awards. rewrite Hget. simpl.
    rewrite Hsleep. simpl. rewrite Hblock. simpl.
    unfold body_except_Exception, scrape_united.extraction_block, body_bind, call, when,
      body_ret, set_flights_found, set_min_miles, read_flights_found. simpl.
    now rewrite Hcards, Hms, Hraise.
  - unfold auto_scraper.extract_flight_data. rewrite Hurl. simpl.
    rewrite Hsleep. simpl. rewrite Hblock. simpl. rewrite Hcards. simpl.
    rewrite Hms. simpl. now rewrite Hraise.
Qed.

Lemma X16_unreadable_price_drops_all_witness :
  scrape_united.scrape_united_awards january "ATL" "LAX" 0%nat
    (static_page results_url [] [element "card"] [] []
       [element "8,000";
        {| text := Raise (Exception "StaleElementReferenceException");
           get_attribute := fun _ => Ok PNone |}] [])
    noon false
  = Ok [("origin", PStr "ATL"); ("destination", PStr "LAX"); ("date", PStr "2025-01-01");
        ("flights_found", PInt 1); ("min_miles", PStr "N/A");
        ("scraped_at", PStr "2025-01-01T12:00:00")] /\
  auto_scraper.extract_flight_data
    (static_page results_url [] [element "card"] [] []
       [element "8,000";
        {| text := Raise (Exception "StaleElementReferenceException");
           get_attribute := fun _ => Ok PNone |}] [])
    noon = Ok None.
Proof.
  apply (X16_unreadable_price_drops_all nat january "ATL" "LAX" 0%nat _ noon
           [element "card"] [element "8,000"]
           {| text := Raise (Exception "StaleElementReferenceException");
              get_attribute := fun _ => Ok PNone |} []
           "StaleElementReferenceException"); try reflexivity.
  - now exists results_url.
  - constructor; [now exists "8,000" | constructor].
Defined.

(** * Further properties: the header over the life of a file *)

Lemma extracted_row_is_data driver clock r :
  auto_scraper.extract_flight_data driver clock = Ok (Some r) ->
  dict_to_row r = Ok (map snd r) /\ data_row (map snd r).
Proof.
  intros Hr. apply extract_flight_data_shape in Hr as (url & found & miles & _ & -> & Hcases).
  split; [reflexivity|]. split; [reflexivity|]. unfold header_row. simpl.
  destruct Hcases as [[-> _] | (n & m & -> & _)]; discriminate.
Qed.

Lemma main_turn_in_order t w r w' :
  auto_scraper.main_turn t w = Some (r, w') ->
  match files w !! auto_scraper.default_filename with
  | Some rows => store_in_order rows
  | None => True
  end ->
  match files w' !! auto_scraper.default_filename with
  | Some rows => store_in_order rows
  | None => True
  end.
Proof.
  unfold auto_scraper.main_turn.
  destruct (auto_scraper.wait_for_search_results _ _) as [[[|]|e]|]; try discriminate;
    try (now intros [= _ <-]).
  destruct (auto_scraper.extract_flight_data _ _) as [[d|]|e] eqn:Hd;
    try (now intros [= _ <-]).
  destruct (extracted_row_is_data _ _ _ Hd) as [Hrow Hdata].
  destruct (dict_truthy d); intros [= _ <-]; [|auto].
  destruct (files w !! auto_scraper.default_filename) as [rows|] eqn:E.
  - intros (data & -> & Hall).
    rewrite (save_to_csv_existing d _ _ _ _ E Hrow). cbn [snd].
    rewrite files_set_file. exists (data ++ [map snd d])%list. split; [reflexivity|].
    apply Forall_app. split; [exact Hall | now constructor].
  - intros _. rewrite (save_to_csv_new d _ _ _ E Hrow). cbn [snd].
    rewrite files_set_file. exists [map snd d]. split; [reflexivity | now constructor].
Qed.

Lemma main_loop_in_order ts w e w' :
  auto_scraper.main_loop ts w = Some (e, w') ->
  match files w !! auto_scraper.default_filename with
  | Some rows => store_in_order rows
  | None => True
  end ->
  match files w' !! auto_scraper.default_filename with
  | Some rows => store_in_order rows
  | None => True
  end.
Proof.
  revert w. induction ts as [|t rest IH]; intros w; simpl; [discriminate|].
  destruct (auto_scraper.main_turn t w) as [[[[]|x] w1]|] eqn:E; try discriminate.
  - intros H Hw. apply (IH _ H). eapply main_turn_in_order; eauto.
  - intros [= <- <-]. eapply main_turn_in_order; eauto.
Qed.

(** X17: the header stays once, at the top.  If united_awards.csv does not
    exist, or holds the header followed by data rows, then after an
    interactive session, however it ends, it still does not exist or holds the
    header followed by data rows (none of which is a header): sessions can
    follow one another, or follow a batch run, on the same file. *)
Theorem X17_header_once_over_sessions :
  forall env w r w',
    auto_scraper.main env w = Some (r, w') ->
    match files w !! auto_scraper.default_filename with
    | Some rows => store_in_order rows
    | None => True
    end ->
    match files w' !! auto_scraper.default_filename with
    | Some rows => store_in_order rows
    | None => True
    end.
Proof.
  intros env w r w'. unfold auto_scraper.main.
  destruct (auto_scraper.start_input env); [|now intros [= _ <-]].
  destruct (auto_scraper.setup_driver env); [|now intros [= _ <-]].
  unfold bind, driver_quit.
  destruct (auto_scraper.home_get env) as [[]|e1]; [|now intros [= _ <-]].
  destruct (auto_scraper.login_input env) as [s1|e2]; [|now intros [= _ <-]].
  destruct (auto_scraper.main_loop _ w) as [[e3 w1]|] eqn:E; [|discriminate].
  intros [= _ <-]. simpl. eapply main_loop_in_order; eauto.
Qed.

Lemma X17_header_once_over_sessions_witness :
  match files (snd (driver_quit (Ok tt)
                      (snd (auto_scraper.save_to_csv (sample_row "ATL" "LAX" 2 (PInt 8000))
                              auto_scraper.default_filename fresh_world))))
          !! auto_scraper.default_filename with
  | Some rows => store_in_order rows
  | None => True
  end.
Proof.
  apply (X17_header_once_over_sessions
           (interactive_run [idle_turn; search_turn results_page; ctrl_c_turn])
           fresh_world (Ok tt)).
  - vm_compute. reflexivity.
  - exact I.
Defined.

(** * Further properties: the debug switch and the teardown *)

(** X18: the debug switch is not neutral.  When the screenshot, the page
    title and the class of the first candidate can all be read, the record
    with debug is the record without it; but when the screenshot cannot be
    taken, the fault is absorbed like an extraction fault and the row holds 0
    and 'N/A', whatever the page shows. *)
Theorem X18_debug_and_the_record :
  forall (datetime : Type) (strftime_ymd : datetime -> string)
         origin destination date driver clock,
    let shot := "debug_" ++ origin ++ "_" ++ destination ++ "_" ++ strftime_ymd date ++ ".png" in
    ((exists b, save_screenshot driver shot = Ok b) ->
     (exists t, title driver = Ok t) ->
     (forall first rest, find_flight_elements driver = Ok (first :: rest) ->
                         exists c, get_attribute first "class" = Ok c) ->
     scrape_united.scrape_united_awards strftime_ymd origin destination date
       driver clock true
     = scrape_united.scrape_united_awards strftime_ymd origin destination date
         driver clock false) /\
    (forall msg,
       get driver (scrape_united.search_url origin destination (strftime_ymd date)) = Ok tt ->
       sleep clock = Ok tt ->
       find_elements driver XPATH block_xpath = Ok [] ->
       save_screenshot driver shot = Raise (Exception msg) ->
       scrape_united.scrape_united_awards strftime_ymd origin destination date
         driver clock true
       = Ok [("origin", PStr origin); ("destination", PStr destination);
             ("date", PStr (strftime_ymd date));
             ("flights_found", PInt 0); ("min_miles", PStr "N/A");
             ("scraped_at", PStr (now_isoformat clock))]).
Proof.
  intros datetime strftime_ymd origin destination date driver clock shot. split.
  - intros [b Hshot] [t Htitle] Hattr.
    unfold scrape_united.scrape_united_awards.
    destruct (get driver _) as [[]|e]; [|reflexivity]. simpl.
    destruct (sleep clock) as [[]|e]; [|reflexivity]. simpl.
    destruct (find_elements driver XPATH block_xpath) as [[|x xs]|e]; try reflexivity.
    simpl.
    assert (Hsame :
      scrape_united.extraction_block driver origin destination (strftime_ymd date) true
        {| flights_found := 0; min_miles := None |}
      = scrape_united.extraction_block driver origin destination (strftime_ymd date) false
          {| flights_found := 0; min_miles := None |}).
    { unfold scrape_united.extraction_block, body_bind, call, when, body_ret,
        set_flights_found, set_min_miles, read_flights_found. simpl.
      fold shot. rewrite Hshot, Htitle.
      destruct (find_flight_elements driver) as [[|first rest]|e] eqn:Hcards;
        try reflexivity.
      destruct (Hattr first rest eq_refl) as [c Hc]. simpl. now rewrite Hc. }
    unfold body_except_Exception. now rewrite Hsame.
  - intros msg Hget Hsleep Hblock Hshot.
    unfold scrape_united.scrape_united_awards. rewrite Hget. simpl.
    rewrite Hsleep. simpl. rewrite Hblock. simpl.
    unfold body_except_Exception, scrape_united.extraction_block, body_bind, call, when,
      body_ret. simpl. fold shot. now rewrite Hshot.
Qed.

Lemma X18_debug_and_the_record_witness :
  scrape_united.scrape_united_awards january "ATL" "LAX" 0%nat results_page noon true
  = scrape_united.scrape_united_awards january "ATL" "LAX" 0%nat results_page noon false.
Proof.
  apply (proj1 (X18_debug_and_the_record nat january "ATL" "LAX" 0%nat results_page noon)).
  - now exists true.
  - now exists "United Airlines".
  - intros first rest H. injection H as <- _. now exists PNone.
Defined.

(** X19: the count of driver.quit() calls, in full.  The batch main calls it
    once when Chrome was launched and the login phase (if asked for) went
    through, and not at all otherwise; the interactive main, whenever it
    returns, has called it once when the first prompt was answered and Chrome
    was launched, and not at all otherwise.  Neither ever calls it twice. *)
Theorem X19_teardown_count :
  (forall (datetime : Type) (strftime_ymd : datetime -> string)
          (add_days : datetime -> nat -> datetime)
          (test_mode debug manual_login : bool) (env : scrape_united.Env datetime) w,
      quit_calls (snd (scrape_united.main strftime_ymd add_days test_mode debug
                         manual_login env w))
      = (quit_calls w +
         match scrape_united.setup_driver env with
         | Raise _ => 0
         | Ok _ =>
             if manual_login
             then match scrape_united.login_get env, scrape_united.login_sleep env,
                        scrape_united.login_input env with
                  | Ok _, Ok _, Ok _ => 1
                  | _, _, _ => 0
                  end
             else 1
         end)%nat) /\
  (forall env w r w',
      auto_scraper.main env w = Some (r, w') ->
      quit_calls w'
      = (quit_calls w +
         match auto_scraper.start_input env, auto_scraper.setup_driver env with
         | Ok _, Ok _ => 1
         | _, _ => 0
         end)%nat).
Proof.
  split.
  - intros datetime strftime_ymd add_days test_mode debug manual_login env w.
    destruct (scrape_united.setup_driver env) as [[]|e] eqn:Hsetup.
    2:{ unfold scrape_united.main, io_bind, io_call. rewrite Hsetup. simpl. lia. }
    destruct manual_login.
    + destruct (scrape_united.login_get env) as [[]|e] eqn:Hg.
      2:{ rewrite (batch_login_fault_skips_quit strftime_ymd add_days test_mode debug env w e
                     Hsetup); [simpl; lia | auto]. }
      destruct (scrape_united.login_sleep env) as [[]|e] eqn:Hs.
      2:{ rewrite (batch_login_fault_skips_quit strftime_ymd add_days test_mode debug env w e
                     Hsetup); [simpl; lia | auto]. }
      destruct (scrape_united.login_input env) as [s|e] eqn:Hi.
      2:{ rewrite (batch_login_fault_skips_quit strftime_ymd add_days test_mode debug env w e
                     Hsetup); [simpl; lia | auto]. }
      rewrite batch_quits_once_after_login; [lia | exact Hsetup | eauto].
    + rewrite batch_quits_once_after_login; [lia | exact Hsetup | discriminate].
  - intros env w r w' Hmain.
    destruct (auto_scraper.start_input env) as [s|e] eqn:Hstart.
    + destruct (auto_scraper.setup_driver env) as [[]|e] eqn:Hsetup.
      * rewrite (interactive_quits_once env w r w'); [lia | eauto | exact Hsetup | exact Hmain].
      * unfold auto_scraper.main in Hmain. rewrite Hstart, Hsetup in Hmain.
        injection Hmain as _ <-. lia.
    + unfold auto_scraper.main in Hmain. rewrite Hstart in Hmain.
      injection Hmain as _ <-. lia.
Qed.

Lemma X19_teardown_count_witness :
  quit_calls (snd (driver_quit (Ok tt)
                     (snd (auto_scraper.save_to_csv (sample_row "ATL" "LAX" 2 (PInt 8000))
                             auto_scraper.default_filename fresh_world))))
  = (quit_calls fresh_world + 1)%nat.
Proof.
  apply (proj2 X19_teardown_count
           (interactive_run [idle_turn; search_turn results_page; ctrl_c_turn])
           fresh_world (Ok tt)).
  vm_compute. reflexivity.
Defined.

(** * Further properties: the prices of decimal texts *)

Lemma is_decimal_text_spec text : is_decimal_text text = true <-> decimal_text text.
Proof.
  unfold is_decimal_text, decimal_text.
  rewrite andb_true_iff, forallb_forall, Z.leb_le, List.Forall_forall.
  split; intros [Hall Hlen]; (split; [|exact Hlen]); intros c Hc; specialize (Hall c Hc).
  - intros Hd. now rewrite Hd in Hall.
  - destruct (isdigit c); [now rewrite Hall | reflexivity].
Qed.

Lemma kept_digits_decimal text :
  Forall (fun c => isdecimal c = true) (list_ascii_of_string (filter_str isdigit text)) ->
  Forall (fun c => isdigit c = true -> isdecimal c = true) (list_ascii_of_string text).
Proof.
  induction text as [|c r IH]; simpl; intros H; [constructor|].
  destruct (isdigit c) eqn:E.
  - simpl in H. apply Forall_cons_iff in H as [Hc Hr]. constructor; auto.
  - constructor; [intros Hd; congruence | auto].
Qed.

Lemma int_length s n : int s = Ok n -> Z.of_nat (String.length s) <= max_str_digits.
Proof.
  unfold int. destruct (str_truthy s); [|discriminate]. simpl.
  destruct (forallb isdecimal (list_ascii_of_string s)); [|discriminate]. simpl.
  destruct (Z.leb_spec (Z.of_nat (String.length s)) max_str_digits); [auto | discriminate].
Qed.

(** The loop body goes through exactly on the decimal texts. *)
Lemma add_price_ok miles_prices text prices :
  add_price miles_prices text = Ok prices -> decimal_text text.
Proof.
  unfold add_price. rewrite numbers_of_raw.
  destruct (str_truthy (filter_str isdigit text)) eqn:E.
  - destruct (int (filter_str isdigit text)) as [n|e] eqn:Hint; [|discriminate].
    intros _. split.
    + apply kept_digits_decimal. now apply int_value in Hint.
    + now apply int_length in Hint.
  - intros _. destruct (filter_str isdigit text) eqn:Hf; [|discriminate E]. split.
    + apply kept_digits_decimal. rewrite Hf. constructor.
    + rewrite Hf. unfold max_str_digits. cbn [String.length]. lia.
Qed.



Lemma int_acc_shift acc s :
  int_acc acc s = acc * 10 ^ Z.of_nat (String.length s) + int_acc 0 s.
Proof.
  revert acc. induction s as [|c r IH]; intros acc.
  - simpl. lia.
  - cbn [int_acc String.length]. rewrite (IH (acc * 10 + digit_value c)), (IH (0 * 10 + digit_value c)).
    rewrite Nat2Z.inj_succ, Z.pow_succ_r by lia. ring.
Qed.



(** X21: what one price text adds.  A decimal text with a digit adds one
    value, the integer spelled by all the digits of the text in order,
    whatever separates them: the digits of a text followed by those of
    another read as the first number shifted left by the length of the
    second, plus the second.  A text without a digit adds nothing.  The loop
    body raises ValueError exactly on the texts that are not decimal, and two
    texts with the same digits fare the same. *)
Theorem X21_one_value_from_all_digits :
  (forall miles_prices text,
      decimal_text text ->
      (exists c, In c (list_ascii_of_string text) /\ isdigit c = true) ->
      add_price miles_prices text
      = Ok (miles_prices ++ [int_acc 0 (filter_str isdigit text)])%list) /\
  (forall miles_prices text,
      (forall c, In c (list_ascii_of_string text) -> isdigit c = false) ->
      add_price miles_prices text = Ok miles_prices) /\
  (forall a b,
      int_acc 0 (filter_str isdigit (a ++ b))
      = int_acc 0 (filter_str isdigit a)
        * 10 ^ Z.of_nat (String.length (filter_str isdigit b))
        + int_acc 0 (filter_str isdigit b)) /\
  (forall miles_prices text,
      add_price miles_prices text = Raise (Exception "ValueError") <-> ~ decimal_text text) /\
  (forall miles_prices t1 t2,
      filter_str isdigit t1 = filter_str isdigit t2 ->
      add_price miles_prices t1 = add_price miles_prices t2).
Proof.
  split.
  { intros miles_prices text Hdec Hdigit. rewrite (add_price_decimal _ _ Hdec).
    apply str_truthy_filter in Hdigit. now rewrite Hdigit. }
  split.
  { intros miles_prices text Hnone. unfold add_price. rewrite numbers_of_raw.
    destruct (str_truthy (filter_str isdigit text)) eqn:E; [|reflexivity].
    apply str_truthy_filter in E as (c & Hin & Hc). rewrite (Hnone c Hin) in Hc.
    discriminate. }
  split.
  { intros a b. now rewrite filter_str_app, int_acc_app, int_acc_shift. }
  split.
  { intros miles_prices text. split.
    - intros Hraise Hdec. rewrite (add_price_decimal _ _ Hdec) in Hraise. discriminate.
    - intros Hnot. destruct (add_price miles_prices text) as [prices|e] eqn:E.
      + exfalso. apply Hnot. eapply add_price_ok; eauto.
      + f_equal. eapply add_price_raises; eauto. }
  intros miles_prices t1 t2 E. unfold add_price. now rewrite !numbers_of_raw, E.
Qed.

Lemma X21_one_value_from_all_digits_witness :
  add_price [8000] "1 stop 12,500 miles" = Ok [8000; 112500].
Proof.
  apply (proj1 X21_one_value_from_all_digits [8000] "1 stop 12,500 miles").
  - apply is_decimal_text_spec. reflexivity.
  - exists "1"%char. split; [simpl; auto | reflexivity].
Defined.
